(** * Jiraiya story service: validation, parsing, retry and error mapping

    A shallow embedding of the story-generation path of the service
    ([schemas/story.py], [services/story_generator.py], [api/v1/router.py],
    [api/errors.py], [api/deps.py], [core/config.py], [core/exceptions.py])
    and the properties its specification states about it, followed by
    further properties read off the code.

    Python values are modelled as follows.
    - A [str] is the [string] of the bytes of its UTF-8 encoding; lengths
      are counted in code points, whitespace and case mapping are those
      of Unicode 14.0 as CPython 3.11 has them.
    - [set(...)] is a [gset string]; [list(set(...))] is [elements], whose
      order is as unspecified as the hash order of Python: the theorems
      only use membership and absence of duplicates.
    - Exceptions are values of [py_exception]; code that may raise runs in
      a small state-and-error monad over the observable world (number of
      upstream invocations, log, backoff sleeps). *)

From Stdlib Require Import ZArith NArith Ascii String List Lia DecimalString.
From stdpp Require Import base gmap sets list strings.

Local Open Scope Z_scope.

(* stdpp freezes [append] for [simpl]; the proofs below compute with it. *)
#[local] Arguments String.append !s1 s2 : simpl nomatch.

(** ** Python string primitives *)

Module Py.

(** *** Unicode data

    The character data of Unicode 14.0 that [str.isspace], [str.lower] and
    [str.capitalize] of CPython 3.11 consult. *)

(** The code points [str.isspace] holds of, as ranges. *)
Definition whitespace_ranges : list (N * N) :=
  [
   (9,13); (28,32); (133,133); (160,160); (5760,5760); (8192,8202);
   (8232,8233); (8239,8239); (8287,8287); (12288,12288)
  ]%N.

(** The case-ignorable code points. *)
Definition case_ignorable_ranges : list (N * N) :=
  [
   (39,39); (46,46); (58,58); (94,94); (96,96); (168,168); (173,173);
   (175,175); (180,180); (183,184); (688,879); (884,885); (890,890);
   (900,901); (903,903); (1155,1161); (1369,1369); (1375,1375); (1425,1469);
   (1471,1471); (1473,1474); (1476,1477); (1479,1479); (1524,1524);
   (1536,1541); (1552,1562); (1564,1564); (1600,1600); (1611,1631);
   (1648,1648); (1750,1757); (1759,1768); (1770,1773); (1807,1807);
   (1809,1809); (1840,1866); (1958,1968); (2027,2037); (2042,2042);
   (2045,2045); (2070,2093); (2137,2139); (2184,2184); (2192,2193);
   (2200,2207); (2249,2306); (2362,2362); (2364,2364); (2369,2376);
   (2381,2381); (2385,2391); (2402,2403); (2417,2417); (2433,2433);
   (2492,2492); (2497,2500); (2509,2509); (2530,2531); (2558,2558);
   (2561,2562); (2620,2620); (2625,2626); (2631,2632); (2635,2637);
   (2641,2641); (2672,2673); (2677,2677); (2689,2690); (2748,2748);
   (2753,2757); (2759,2760); (2765,2765); (2786,2787); (2810,2815);
   (2817,2817); (2876,2876); (2879,2879); (2881,2884); (2893,2893);
   (2901,2902); (2914,2915); (2946,2946); (3008,3008); (3021,3021);
   (3072,3072); (3076,3076); (3132,3132); (3134,3136); (3142,3144);
   (3146,3149); (3157,3158); (3170,3171); (3201,3201); (3260,3260);
   (3263,3263); (3270,3270); (3276,3277); (3298,3299); (3328,3329);
   (3387,3388); (3393,3396); (3405,3405); (3426,3427); (3457,3457);
   (3530,3530); (3538,3540); (3542,3542); (3633,3633); (3636,3642);
   (3654,3662); (3761,3761); (3764,3772); (3782,3782); (3784,3789);
   (3864,3865); (3893,3893); (3895,3895); (3897,3897); (3953,3966);
   (3968,3972); (3974,3975); (3981,3991); (3993,4028); (4038,4038);
   (4141,4144); (4146,4151); (4153,4154); (4157,4158); (4184,4185);
   (4190,4192); (4209,4212); (4226,4226); (4229,4230); (4237,4237);
   (4253,4253); (4348,4348); (4957,4959); (5906,5908); (5938,5939);
   (5970,5971); (6002,6003); (6068,6069); (6071,6077); (6086,6086);
   (6089,6099); (6103,6103); (6109,6109); (6155,6159); (6211,6211);
   (6277,6278); (6313,6313); (6432,6434); (6439,6440); (6450,6450);
   (6457,6459); (6679,6680); (6683,6683); (6742,6742); (6744,6750);
   (6752,6752); (6754,6754); (6757,6764); (6771,6780); (6783,6783);
   (6823,6823); (6832,6862); (6912,6915); (6964,6964); (6966,6970);
   (6972,6972); (6978,6978); (7019,7027); (7040,7041); (7074,7077);
   (7080,7081); (7083,7085); (7142,7142); (7144,7145); (7149,7149);
   (7151,7153); (7212,7219); (7222,7223); (7288,7293); (7376,7378);
   (7380,7392); (7394,7400); (7405,7405); (7412,7412); (7416,7417);
   (7468,7530); (7544,7544); (7579,7679); (8125,8125); (8127,8129);
   (8141,8143); (8157,8159); (8173,8175); (8189,8190); (8203,8207);
   (8216,8217); (8228,8228); (8231,8231); (8234,8238); (8288,8292);
   (8294,8303); (8305,8305); (8319,8319); (8336,8348); (8400,8432);
   (11388,11389); (11503,11505); (11631,11631); (11647,11647);
   (11744,11775); (11823,11823); (12293,12293); (12330,12333);
   (12337,12341); (12347,12347); (12441,12446); (12540,12542);
   (40981,40981); (42232,42237); (42508,42508); (42607,42610);
   (42612,42621); (42623,42623); (42652,42655); (42736,42737);
   (42752,42785); (42864,42864); (42888,42890); (42994,42996);
   (43000,43001); (43010,43010); (43014,43014); (43019,43019);
   (43045,43046); (43052,43052); (43204,43205); (43232,43249);
   (43263,43263); (43302,43309); (43335,43345); (43392,43394);
   (43443,43443); (43446,43449); (43452,43453); (43471,43471);
   (43493,43494); (43561,43566); (43569,43570); (43573,43574);
   (43587,43587); (43596,43596); (43632,43632); (43644,43644);
   (43696,43696); (43698,43700); (43703,43704); (43710,43711);
   (43713,43713); (43741,43741); (43756,43757); (43763,43764);
   (43766,43766); (43867,43871); (43881,43883); (44005,44005);
   (44008,44008); (44013,44013); (64286,64286); (64434,64450);
   (65024,65039); (65043,65043); (65056,65071); (65106,65106);
   (65109,65109); (65279,65279); (65287,65287); (65294,65294);
   (65306,65306); (65342,65342); (65344,65344); (65392,65392);
   (65438,65439); (65507,65507); (65529,65531); (66045,66045);
   (66272,66272); (66422,66426); (67456,67461); (67463,67504);
   (67506,67514); (68097,68099); (68101,68102); (68108,68111);
   (68152,68154); (68159,68159); (68325,68326); (68900,68903);
   (69291,69292); (69446,69456); (69506,69509); (69633,69633);
   (69688,69702); (69744,69744); (69747,69748); (69759,69761);
   (69811,69814); (69817,69818); (69821,69821); (69826,69826);
   (69837,69837); (69888,69890); (69927,69931); (69933,69940);
   (70003,70003); (70016,70017); (70070,70078); (70089,70092);
   (70095,70095); (70191,70193); (70196,70196); (70198,70199);
   (70206,70206); (70367,70367); (70371,70378); (70400,70401);
   (70459,70460); (70464,70464); (70502,70508); (70512,70516);
   (70712,70719); (70722,70724); (70726,70726); (70750,70750);
   (70835,70840); (70842,70842); (70847,70848); (70850,70851);
   (71090,71093); (71100,71101); (71103,71104); (71132,71133);
   (71219,71226); (71229,71229); (71231,71232); (71339,71339);
   (71341,71341); (71344,71349); (71351,71351); (71453,71455);
   (71458,71461); (71463,71467); (71727,71735); (71737,71738);
   (71995,71996); (71998,71998); (72003,72003); (72148,72151);
   (72154,72155); (72160,72160); (72193,72202); (72243,72248);
   (72251,72254); (72263,72263); (72273,72278); (72281,72283);
   (72330,72342); (72344,72345); (72752,72758); (72760,72765);
   (72767,72767); (72850,72871); (72874,72880); (72882,72883);
   (72885,72886); (73009,73014); (73018,73018); (73020,73021);
   (73023,73029); (73031,73031); (73104,73105); (73109,73109);
   (73111,73111); (73459,73460); (78896,78904); (92912,92916);
   (92976,92982); (92992,92995); (94031,94031); (94095,94111);
   (94176,94177); (94179,94180); (110576,110579); (110581,110587);
   (110589,110590); (113821,113822); (113824,113827); (118528,118573);
   (118576,118598); (119143,119145); (119155,119170); (119173,119179);
   (119210,119213); (119362,119364); (121344,121398); (121403,121452);
   (121461,121461); (121476,121476); (121499,121503); (121505,121519);
   (122880,122886); (122888,122904); (122907,122913); (122915,122916);
   (122918,122922); (123184,123197); (123566,123566); (123628,123631);
   (125136,125142); (125252,125259); (127995,127999); (917505,917505);
   (917536,917631); (917760,917999)
  ]%N.

(** The cased code points among those that are not case-ignorable. *)
Definition cased_ranges : list (N * N) :=
  [
   (65,90); (97,122); (170,170); (181,181); (186,186); (192,214); (216,246);
   (248,442); (444,447); (452,659); (661,687); (880,883); (886,887);
   (891,893); (895,895); (902,902); (904,906); (908,908); (910,929);
   (931,1013); (1015,1153); (1162,1327); (1329,1366); (1376,1416);
   (4256,4293); (4295,4295); (4301,4301); (4304,4346); (4349,4351);
   (5024,5109); (5112,5117); (7296,7304); (7312,7354); (7357,7359);
   (7424,7467); (7531,7543); (7545,7578); (7680,7957); (7960,7965);
   (7968,8005); (8008,8013); (8016,8023); (8025,8025); (8027,8027);
   (8029,8029); (8031,8061); (8064,8116); (8118,8124); (8126,8126);
   (8130,8132); (8134,8140); (8144,8147); (8150,8155); (8160,8172);
   (8178,8180); (8182,8188); (8450,8450); (8455,8455); (8458,8467);
   (8469,8469); (8473,8477); (8484,8484); (8486,8486); (8488,8488);
   (8490,8493); (8495,8500); (8505,8505); (8508,8511); (8517,8521);
   (8526,8526); (8544,8575); (8579,8580); (9398,9449); (11264,11387);
   (11390,11492); (11499,11502); (11506,11507); (11520,11557);
   (11559,11559); (11565,11565); (42560,42605); (42624,42651);
   (42786,42863); (42865,42887); (42891,42894); (42896,42954);
   (42960,42961); (42963,42963); (42965,42969); (42997,42998);
   (43002,43002); (43824,43866); (43872,43880); (43888,43967);
   (64256,64262); (64275,64279); (65313,65338); (65345,65370);
   (66560,66639); (66736,66771); (66776,66811); (66928,66938);
   (66940,66954); (66956,66962); (66964,66965); (66967,66977);
   (66979,66993); (66995,67001); (67003,67004); (68736,68786);
   (68800,68850); (71840,71903); (93760,93823); (119808,119892);
   (119894,119964); (119966,119967); (119970,119970); (119973,119974);
   (119977,119980); (119982,119993); (119995,119995); (119997,120003);
   (120005,120069); (120071,120074); (120077,120084); (120086,120092);
   (120094,120121); (120123,120126); (120128,120132); (120134,120134);
   (120138,120144); (120146,120485); (120488,120512); (120514,120538);
   (120540,120570); (120572,120596); (120598,120628); (120630,120654);
   (120656,120686); (120688,120712); (120714,120744); (120746,120770);
   (120772,120779); (122624,122633); (122635,122654); (125184,125251);
   (127280,127305); (127312,127337); (127344,127369)
  ]%N.

(** Lower-case mapping: [(first, last, step, image of first)]. *)
Definition lower_ranges : list (N * N * N * N) :=
  [
   (65,90,1,97); (192,214,1,224); (216,222,1,248); (256,302,2,257);
   (306,310,2,307); (313,327,2,314); (330,374,2,331); (376,376,1,255);
   (377,381,2,378); (385,385,1,595); (386,388,2,387); (390,390,1,596);
   (391,391,1,392); (393,394,1,598); (395,395,1,396); (398,398,1,477);
   (399,399,1,601); (400,400,1,603); (401,401,1,402); (403,403,1,608);
   (404,404,1,611); (406,406,1,617); (407,407,1,616); (408,408,1,409);
   (412,412,1,623); (413,413,1,626); (415,415,1,629); (416,420,2,417);
   (422,422,1,640); (423,423,1,424); (425,425,1,643); (428,428,1,429);
   (430,430,1,648); (431,431,1,432); (433,434,1,650); (435,437,2,436);
   (439,439,1,658); (440,440,1,441); (444,444,1,445); (452,452,1,454);
   (453,453,1,454); (455,455,1,457); (456,456,1,457); (458,458,1,460);
   (459,475,2,460); (478,494,2,479); (497,497,1,499); (498,500,2,499);
   (502,502,1,405); (503,503,1,447); (504,542,2,505); (544,544,1,414);
   (546,562,2,547); (570,570,1,11365); (571,571,1,572); (573,573,1,410);
   (574,574,1,11366); (577,577,1,578); (579,579,1,384); (580,580,1,649);
   (581,581,1,652); (582,590,2,583); (880,882,2,881); (886,886,1,887);
   (895,895,1,1011); (902,902,1,940); (904,906,1,941); (908,908,1,972);
   (910,911,1,973); (913,929,1,945); (931,939,1,963); (975,975,1,983);
   (984,1006,2,985); (1012,1012,1,952); (1015,1015,1,1016);
   (1017,1017,1,1010); (1018,1018,1,1019); (1021,1023,1,891);
   (1024,1039,1,1104); (1040,1071,1,1072); (1120,1152,2,1121);
   (1162,1214,2,1163); (1216,1216,1,1231); (1217,1229,2,1218);
   (1232,1326,2,1233); (1329,1366,1,1377); (4256,4293,1,11520);
   (4295,4295,1,11559); (4301,4301,1,11565); (5024,5103,1,43888);
   (5104,5109,1,5112); (7312,7354,1,4304); (7357,7359,1,4349);
   (7680,7828,2,7681); (7838,7838,1,223); (7840,7934,2,7841);
   (7944,7951,1,7936); (7960,7965,1,7952); (7976,7983,1,7968);
   (7992,7999,1,7984); (8008,8013,1,8000); (8025,8031,2,8017);
   (8040,8047,1,8032); (8072,8079,1,8064); (8088,8095,1,8080);
   (8104,8111,1,8096); (8120,8121,1,8112); (8122,8123,1,8048);
   (8124,8124,1,8115); (8136,8139,1,8050); (8140,8140,1,8131);
   (8152,8153,1,8144); (8154,8155,1,8054); (8168,8169,1,8160);
   (8170,8171,1,8058); (8172,8172,1,8165); (8184,8185,1,8056);
   (8186,8187,1,8060); (8188,8188,1,8179); (8486,8486,1,969);
   (8490,8490,1,107); (8491,8491,1,229); (8498,8498,1,8526);
   (8544,8559,1,8560); (8579,8579,1,8580); (9398,9423,1,9424);
   (11264,11311,1,11312); (11360,11360,1,11361); (11362,11362,1,619);
   (11363,11363,1,7549); (11364,11364,1,637); (11367,11371,2,11368);
   (11373,11373,1,593); (11374,11374,1,625); (11375,11375,1,592);
   (11376,11376,1,594); (11378,11378,1,11379); (11381,11381,1,11382);
   (11390,11391,1,575); (11392,11490,2,11393); (11499,11501,2,11500);
   (11506,11506,1,11507); (42560,42604,2,42561); (42624,42650,2,42625);
   (42786,42798,2,42787); (42802,42862,2,42803); (42873,42875,2,42874);
   (42877,42877,1,7545); (42878,42886,2,42879); (42891,42891,1,42892);
   (42893,42893,1,613); (42896,42898,2,42897); (42902,42920,2,42903);
   (42922,42922,1,614); (42923,42923,1,604); (42924,42924,1,609);
   (42925,42925,1,620); (42926,42926,1,618); (42928,42928,1,670);
   (42929,42929,1,647); (42930,42930,1,669); (42931,42931,1,43859);
   (42932,42946,2,42933); (42948,42948,1,42900); (42949,42949,1,642);
   (42950,42950,1,7566); (42951,42953,2,42952); (42960,42960,1,42961);
   (42966,42968,2,42967); (42997,42997,1,42998); (65313,65338,1,65345);
   (66560,66599,1,66600); (66736,66771,1,66776); (66928,66938,1,66967);
   (66940,66954,1,66979); (66956,66962,1,66995); (66964,66965,1,67003);
   (68736,68786,1,68800); (71840,71871,1,71872); (93760,93791,1,93792);
   (125184,125217,1,125218)
  ]%N.

(** Code points whose lower case has several code points. *)
Definition lower_special : list (N * list N) :=
  [
   (304,[105;775])
  ]%N.

(** Title-case mapping: [(first, last, step, image of first)]. *)
Definition title_ranges : list (N * N * N * N) :=
  [
   (97,122,1,65); (181,181,1,924); (224,246,1,192); (248,254,1,216);
   (255,255,1,376); (257,303,2,256); (305,305,1,73); (307,311,2,306);
   (314,328,2,313); (331,375,2,330); (378,382,2,377); (383,383,1,83);
   (384,384,1,579); (387,389,2,386); (392,392,1,391); (396,396,1,395);
   (402,402,1,401); (405,405,1,502); (409,409,1,408); (410,410,1,573);
   (414,414,1,544); (417,421,2,416); (424,424,1,423); (429,429,1,428);
   (432,432,1,431); (436,438,2,435); (441,441,1,440); (445,445,1,444);
   (447,447,1,503); (452,452,1,453); (454,454,1,453); (455,455,1,456);
   (457,457,1,456); (458,458,1,459); (460,476,2,459); (477,477,1,398);
   (479,495,2,478); (497,497,1,498); (499,501,2,498); (505,543,2,504);
   (547,563,2,546); (572,572,1,571); (575,576,1,11390); (578,578,1,577);
   (583,591,2,582); (592,592,1,11375); (593,593,1,11373); (594,594,1,11376);
   (595,595,1,385); (596,596,1,390); (598,599,1,393); (601,601,1,399);
   (603,603,1,400); (604,604,1,42923); (608,608,1,403); (609,609,1,42924);
   (611,611,1,404); (613,613,1,42893); (614,614,1,42922); (616,616,1,407);
   (617,617,1,406); (618,618,1,42926); (619,619,1,11362); (620,620,1,42925);
   (623,623,1,412); (625,625,1,11374); (626,626,1,413); (629,629,1,415);
   (637,637,1,11364); (640,640,1,422); (642,642,1,42949); (643,643,1,425);
   (647,647,1,42929); (648,648,1,430); (649,649,1,580); (650,651,1,433);
   (652,652,1,581); (658,658,1,439); (669,669,1,42930); (670,670,1,42928);
   (837,837,1,921); (881,883,2,880); (887,887,1,886); (891,893,1,1021);
   (940,940,1,902); (941,943,1,904); (945,961,1,913); (962,962,1,931);
   (963,971,1,931); (972,972,1,908); (973,974,1,910); (976,976,1,914);
   (977,977,1,920); (981,981,1,934); (982,982,1,928); (983,983,1,975);
   (985,1007,2,984); (1008,1008,1,922); (1009,1009,1,929);
   (1010,1010,1,1017); (1011,1011,1,895); (1013,1013,1,917);
   (1016,1016,1,1015); (1019,1019,1,1018); (1072,1103,1,1040);
   (1104,1119,1,1024); (1121,1153,2,1120); (1163,1215,2,1162);
   (1218,1230,2,1217); (1231,1231,1,1216); (1233,1327,2,1232);
   (1377,1414,1,1329); (5112,5117,1,5104); (7296,7296,1,1042);
   (7297,7297,1,1044); (7298,7298,1,1054); (7299,7300,1,1057);
   (7301,7301,1,1058); (7302,7302,1,1066); (7303,7303,1,1122);
   (7304,7304,1,42570); (7545,7545,1,42877); (7549,7549,1,11363);
   (7566,7566,1,42950); (7681,7829,2,7680); (7835,7835,1,7776);
   (7841,7935,2,7840); (7936,7943,1,7944); (7952,7957,1,7960);
   (7968,7975,1,7976); (7984,7991,1,7992); (8000,8005,1,8008);
   (8017,8023,2,8025); (8032,8039,1,8040); (8048,8049,1,8122);
   (8050,8053,1,8136); (8054,8055,1,8154); (8056,8057,1,8184);
   (8058,8059,1,8170); (8060,8061,1,8186); (8064,8071,1,8072);
   (8080,8087,1,8088); (8096,8103,1,8104); (8112,8113,1,8120);
   (8115,8115,1,8124); (8126,8126,1,921); (8131,8131,1,8140);
   (8144,8145,1,8152); (8160,8161,1,8168); (8165,8165,1,8172);
   (8179,8179,1,8188); (8526,8526,1,8498); (8560,8575,1,8544);
   (8580,8580,1,8579); (9424,9449,1,9398); (11312,11359,1,11264);
   (11361,11361,1,11360); (11365,11365,1,570); (11366,11366,1,574);
   (11368,11372,2,11367); (11379,11379,1,11378); (11382,11382,1,11381);
   (11393,11491,2,11392); (11500,11502,2,11499); (11507,11507,1,11506);
   (11520,11557,1,4256); (11559,11559,1,4295); (11565,11565,1,4301);
   (42561,42605,2,42560); (42625,42651,2,42624); (42787,42799,2,42786);
   (42803,42863,2,42802); (42874,42876,2,42873); (42879,42887,2,42878);
   (42892,42892,1,42891); (42897,42899,2,42896); (42900,42900,1,42948);
   (42903,42921,2,42902); (42933,42947,2,42932); (42952,42954,2,42951);
   (42961,42961,1,42960); (42967,42969,2,42966); (42998,42998,1,42997);
   (43859,43859,1,42931); (43888,43967,1,5024); (65345,65370,1,65313);
   (66600,66639,1,66560); (66776,66811,1,66736); (66967,66977,1,66928);
   (66979,66993,1,66940); (66995,67001,1,66956); (67003,67004,1,66964);
   (68800,68850,1,68736); (71872,71903,1,71840); (93792,93823,1,93760);
   (125218,125251,1,125184)
  ]%N.

(** Code points whose title case has several code points. *)
Definition title_special : list (N * list N) :=
  [
   (223,[83;115]); (329,[700;78]); (496,[74;780]); (912,[921;776;769]);
   (944,[933;776;769]); (1415,[1333;1410]); (7830,[72;817]);
   (7831,[84;776]); (7832,[87;778]); (7833,[89;778]); (7834,[65;702]);
   (8016,[933;787]); (8018,[933;787;768]); (8020,[933;787;769]);
   (8022,[933;787;834]); (8114,[8122;837]); (8116,[902;837]);
   (8118,[913;834]); (8119,[913;834;837]); (8130,[8138;837]);
   (8132,[905;837]); (8134,[919;834]); (8135,[919;834;837]);
   (8146,[921;776;768]); (8147,[921;776;769]); (8150,[921;834]);
   (8151,[921;776;834]); (8162,[933;776;768]); (8163,[933;776;769]);
   (8164,[929;787]); (8166,[933;834]); (8167,[933;776;834]);
   (8178,[8186;837]); (8180,[911;837]); (8182,[937;834]);
   (8183,[937;834;837]); (64256,[70;102]); (64257,[70;105]);
   (64258,[70;108]); (64259,[70;102;105]); (64260,[70;102;108]);
   (64261,[83;116]); (64262,[83;116]); (64275,[1348;1398]);
   (64276,[1348;1381]); (64277,[1348;1387]); (64278,[1358;1398]);
   (64279,[1348;1389])
  ]%N.


Definition in_ranges (c : N) (rs : list (N * N)) : bool :=
  existsb (fun r => (fst r <=? c)%N && (c <=? snd r)%N) rs.

(** [chr(c).isspace()] *)
Definition isspace (c : N) : bool := in_ranges c whitespace_ranges.

Definition case_ignorable (c : N) : bool := in_ranges c case_ignorable_ranges.

(** Asked only of code points that are not case-ignorable. *)
Definition cased (c : N) : bool := in_ranges c cased_ranges.

Fixpoint map_ranges (c : N) (rs : list (N * N * N * N)) : option N :=
  match rs with
  | [] => None
  | (lo, hi, step, image) :: rest =>
      if (lo <=? c)%N && (c <=? hi)%N && ((c - lo) mod step =? 0)%N
      then Some (image + (c - lo))%N
      else map_ranges c rest
  end.

Fixpoint map_special (c : N) (t : list (N * list N)) : option (list N) :=
  match t with
  | [] => None
  | (d, image) :: rest => if (c =? d)%N then Some image else map_special c rest
  end.

Definition map_full (special : list (N * list N)) (rs : list (N * N * N * N))
    (c : N) : list N :=
  match map_special c special with
  | Some image => image
  | None => match map_ranges c rs with
            | Some d => [d]
            | None => [c]
            end
  end.

(** The full lower-case and title-case mappings of one code point. *)
Definition to_lower_full : N -> list N := map_full lower_special lower_ranges.

Definition to_title_full : N -> list N := map_full title_special title_ranges.

(** *** Strings

    A [str] is modelled by its UTF-8 encoding: a [string] is the sequence
    of bytes of the encoded text. *)

Definition is_cont (b : N) : bool := (128 <=? b)%N && (b <? 192)%N.

(** The code point [s] begins with and the number of bytes it takes; a
    byte that begins no well-formed sequence is read as U+FFFD. *)
Definition head (s : string) : option (N * nat) :=
  match s with
  | EmptyString => None
  | String a0 r1 =>
      let b0 := N_of_ascii a0 in
      if (b0 <? 128)%N then Some (b0, 1%nat)
      else
        match r1 with
        | String a1 r2 =>
            let b1 := N_of_ascii a1 in
            if (192 <=? b0)%N && (b0 <? 224)%N && is_cont b1
            then Some (((b0 - 192) * 64 + (b1 - 128))%N, 2%nat)
            else
              match r2 with
              | String a2 r3 =>
                  let b2 := N_of_ascii a2 in
                  if (224 <=? b0)%N && (b0 <? 240)%N && is_cont b1 && is_cont b2
                  then Some ((((b0 - 224) * 64 + (b1 - 128)) * 64 + (b2 - 128))%N,
                             3%nat)
                  else
                    match r3 with
                    | String a3 _ =>
                        let b3 := N_of_ascii a3 in
                        if (240 <=? b0)%N && (b0 <? 248)%N
                           && is_cont b1 && is_cont b2 && is_cont b3
                        then Some (((((b0 - 240) * 64 + (b1 - 128)) * 64
                                     + (b2 - 128)) * 64 + (b3 - 128))%N, 4%nat)
                        else Some (65533%N, 1%nat)
                    | EmptyString => Some (65533%N, 1%nat)
                    end
              | EmptyString => Some (65533%N, 1%nat)
              end
        | EmptyString => Some (65533%N, 1%nat)
        end
  end.

(** The code points of a string. *)
Fixpoint decode (s : string) : list N :=
  match s with
  | EmptyString => []
  | String _ r1 =>
      match head s with
      | Some (c, 2%nat) =>
          c :: match r1 with
               | String _ r2 => decode r2
               | _ => []
               end
      | Some (c, 3%nat) =>
          c :: match r1 with
               | String _ (String _ r3) => decode r3
               | _ => []
               end
      | Some (c, 4%nat) =>
          c :: match r1 with
               | String _ (String _ (String _ r4)) => decode r4
               | _ => []
               end
      | Some (c, _) => c :: decode r1
      | None => []
      end
  end.

Definition encode_cp (c : N) : string :=
  if (c <? 128)%N then String (ascii_of_N c) EmptyString
  else if (c <? 2048)%N then
    String (ascii_of_N (192 + c / 64))
      (String (ascii_of_N (128 + c mod 64)) EmptyString)
  else if (c <? 65536)%N then
    String (ascii_of_N (224 + c / 4096))
      (String (ascii_of_N (128 + (c / 64) mod 64))
         (String (ascii_of_N (128 + c mod 64)) EmptyString))
  else
    String (ascii_of_N (240 + c / 262144))
      (String (ascii_of_N (128 + (c / 4096) mod 64))
         (String (ascii_of_N (128 + (c / 64) mod 64))
            (String (ascii_of_N (128 + c mod 64)) EmptyString))).

(** The string of a sequence of code points. *)
Fixpoint encode (l : list N) : string :=
  match l with
  | [] => EmptyString
  | c :: r => encode_cp c +:+ encode r
  end.

(** [len(s)]: the number of code points. *)
Definition len (s : string) : nat := length (decode s).

Definition is_empty (s : string) : bool :=
  match s with EmptyString => true | String _ _ => false end.

(** The number of bytes of the whitespace character [s] begins with, 0
    when it begins with none. *)
Definition space_width (s : string) : nat :=
  match head s with
  | Some (c, w) => if isspace c then w else O
  | None => O
  end.

(** [s.lstrip()] *)
Fixpoint lstrip (s : string) : string :=
  match s with
  | EmptyString => EmptyString
  | String _ r1 =>
      match space_width s with
      | O => s
      | 1%nat => lstrip r1
      | 2%nat => match r1 with
                 | String _ r2 => lstrip r2
                 | _ => EmptyString
                 end
      | 3%nat => match r1 with
                 | String _ (String _ r3) => lstrip r3
                 | _ => EmptyString
                 end
      | _ => match r1 with
             | String _ (String _ (String _ r4)) => lstrip r4
             | _ => EmptyString
             end
      end
  end.

(** A string made of whitespace only (the empty string included):
    [not s.strip()]. *)
Definition is_blank (s : string) : bool := is_empty (lstrip s).

(** [s.rstrip()]: the string up to the point from which only whitespace
    follows. *)
Fixpoint rstrip (s : string) : string :=
  match s with
  | EmptyString => EmptyString
  | String c r => if is_blank s then EmptyString else String c (rstrip r)
  end.

(** [s.strip()] *)
Definition strip (s : string) : string := rstrip (lstrip s).

Definition newline : ascii := ascii_of_nat 10.

(** [s.split("\n", 1)]: at most one cut, at the first newline. *)
Fixpoint split1 (s : string) : list string :=
  match s with
  | EmptyString => [EmptyString]
  | String c r =>
      if Ascii.eqb c newline then [EmptyString; r]
      else match split1 r with
           | a :: rest => String c a :: rest
           | [] => [String c EmptyString]
           end
  end.

(** ["\n" in s] *)
Fixpoint has_newline (s : string) : bool :=
  match s with
  | EmptyString => false
  | String c r => Ascii.eqb c newline || has_newline r
  end.

(** [s.startswith(p)] *)
Fixpoint startswith (p s : string) : bool :=
  match p, s with
  | EmptyString, _ => true
  | String a p', String b s' => Ascii.eqb a b && startswith p' s'
  | String _ _, EmptyString => false
  end.

(** [old in s] *)
Fixpoint occurs (old s : string) : bool :=
  match s with
  | EmptyString => is_empty old
  | String _ r => startswith old s || occurs old r
  end.

(** Left-to-right scan of [s.replace(old, "")] for a non-empty [old]:
    [skip] counts the characters of the current match still to drop. *)
Fixpoint remove_scan (old : string) (skip : nat) (s : string) : string :=
  match s with
  | EmptyString => EmptyString
  | String c r =>
      match skip with
      | S k => remove_scan old k r
      | O =>
          if startswith old s
          then remove_scan old (Nat.pred (String.length old)) r
          else String c (remove_scan old O r)
      end
  end.

(** [s.replace(old, "")]; with an empty [old] Python returns [s]. *)
Definition remove_all (old s : string) : string :=
  if is_empty old then s else remove_scan old O s.

(** The case mapping of the ASCII letters, to which [lower] and
    [capitalize] come down on ASCII text. *)
Definition upper_char (c : ascii) : ascii :=
  let n := nat_of_ascii c in
  if (97 <=? n)%nat && (n <=? 122)%nat then ascii_of_nat (n - 32) else c.

Definition lower_char (c : ascii) : ascii :=
  let n := nat_of_ascii c in
  if (65 <=? n)%nat && (n <=? 90)%nat then ascii_of_nat (n + 32) else c.

Fixpoint map_chars (f : ascii -> ascii) (s : string) : string :=
  match s with
  | EmptyString => EmptyString
  | String c r => String (f c) (map_chars f r)
  end.

(** [s.isascii()] *)
Fixpoint is_ascii (s : string) : bool :=
  match s with
  | EmptyString => true
  | String c r => (N_of_ascii c <? 128)%N && is_ascii r
  end.

(** Whether a cased character follows, case-ignorable ones skipped. *)
Fixpoint cased_follows (l : list N) : bool :=
  match l with
  | [] => false
  | c :: r => if case_ignorable c then cased_follows r else cased c
  end.

(** Lower-casing of the code points [l]; [before] tells whether a cased
    character precedes them, case-ignorable ones skipped. A capital sigma
    (U+03A3) between such a character and no such character is lowered to
    the final sigma. *)
Fixpoint lower_from (before : bool) (l : list N) : list N :=
  match l with
  | [] => []
  | c :: r =>
      (if (c =? 931)%N
       then [if before && negb (cased_follows r) then 962%N else 963%N]
       else to_lower_full c)
      ++ lower_from (if case_ignorable c then before else cased c) r
  end.

(** [s.lower()] *)
Definition lower (s : string) : string := encode (lower_from false (decode s)).

(** [s.capitalize()]: the first character in title case, the rest in
    lower case. *)
Definition capitalize (s : string) : string :=
  match decode s with
  | [] => EmptyString
  | c :: r =>
      encode (to_title_full c
              ++ lower_from (if case_ignorable c then false else cased c) r)
  end.

(** [sep.join(l)] *)
Fixpoint join (sep : string) (l : list string) : string :=
  match l with
  | [] => EmptyString
  | [x] => x
  | x :: rest => x +:+ sep +:+ join sep rest
  end.

(** [str(n)] for an [int]. *)
Definition str_of_int (n : Z) : string :=
  NilZero.string_of_int (Z.to_int n).

(** Concatenation of the pieces of an f-string. *)
Definition fstring (parts : list string) : string :=
  foldr String.append EmptyString parts.

End Py.

(** ** Exceptions ([core/exceptions.py], [openai], [tenacity], [fastapi]) *)

Inductive py_exception : Type :=
  | RateLimitError (msg : string)
      (* openai.RateLimitError, a subclass of openai.APIError *)
  | APIError (cls : string) (msg : string)
      (* openai.APIError or another of its subclasses, of class name [cls] *)
  | PyException (cls : string) (msg : string)
      (* any other subclass of Exception, of class name [cls] *)
  | StoryGenerationError (msg : string) (detail : option string)
  | RateLimitExceeded (msg : string)
  | RetryError (last : py_exception)
  | HTTPException (status_code : Z) (detail : string).

(** [type(e).__name__] *)
Definition type_name (e : py_exception) : string :=
  match e with
  | RateLimitError _ => "RateLimitError"
  | APIError cls _ => cls
  | PyException cls _ => cls
  | StoryGenerationError _ _ => "StoryGenerationError"
  | RateLimitExceeded _ => "RateLimitExceeded"
  | RetryError _ => "RetryError"
  | HTTPException _ _ => "HTTPException"
  end.

(** The address that [repr] prints for the [Future] of the last attempt is
    a run-time value; the model prints this one in its place. *)
Definition future_address : string := "0x0".

(** [str(e)]; for tenacity's [RetryError] the class name and the [repr] of
    the [Future] of the last attempt. *)
Definition exc_str (e : py_exception) : string :=
  match e with
  | RateLimitError m | APIError _ m | PyException _ m
  | StoryGenerationError m _ | RateLimitExceeded m => m
  | RetryError last =>
      "RetryError[<Future at " +:+ future_address
      +:+ " state=finished raised " +:+ type_name last +:+ ">]"
  | HTTPException _ d => d
  end.

(** [isinstance(e, JiraiyaException)] *)
Definition is_JiraiyaException (e : py_exception) : bool :=
  match e with
  | StoryGenerationError _ _ | RateLimitExceeded _ => true
  | _ => false
  end.

(** [isinstance(e, (RateLimitError, APIError))] *)
Definition is_retryable (e : py_exception) : bool :=
  match e with
  | RateLimitError _ | APIError _ _ => true
  | _ => false
  end.

(** ** Request and response schemas ([schemas/story.py]) *)

(** A payload as it arrives: the two required fields, and for each optional
    field whether it was supplied ([None] = absent) and, if so, whether as
    JSON null ([Some None]) or as a value. Payloads of the wrong JSON types
    are refused by the framework before any code of the repository runs. *)
Record RawRequest : Type := {
  raw_keywords : list string;
  raw_genre : string;
  raw_tone : option (option string);
  raw_max_length : option (option Z);
  raw_min_length : option (option Z)
}.

Record StoryGenerationRequest : Type := {
  keywords : list string;
  genre : string;
  tone : option string;
  max_length : option Z;
  min_length : option Z
}.

Record StoryGenerationResponse : Type := {
  title : string;
  content : string;
  keywords_used : list string
}.

(** What validating one field yields: a value, a validation error (a
    [ValueError] of a validator or a violated [Field] constraint), or an
    exception of another class, which pydantic lets through. *)
Inductive field_result (A : Type) : Type :=
  | Accepted (a : A)
  | Rejected (msg : string)
  | Raised (e : py_exception).
Arguments Accepted {A} a.
Arguments Rejected {A} msg.
Arguments Raised {A} e.

(** [Field(min_length=lo, max_length=hi)] on a list of [n] items. *)
Definition check_size (lo hi : nat) (n : nat) : option string :=
  if (n <? lo)%nat then Some "too_short"%string
  else if (hi <? n)%nat then Some "too_long"%string
  else None.

(** [Field(min_length=lo, max_length=hi)] on a [str], whose length is
    counted in characters. *)
Definition check_length (lo hi : nat) (v : string) : option string :=
  if (Py.len v <? lo)%nat then Some "string_too_short"%string
  else if (hi <? Py.len v)%nat then Some "string_too_long"%string
  else None.

(** [Field(ge=lo, le=hi)] on an [Optional[int]]: null passes. *)
Definition check_range (lo hi : Z) (v : option Z) : option string :=
  match v with
  | None => None
  | Some n =>
      if n <? lo then Some "greater_than_equal"%string
      else if hi <? n then Some "less_than_equal"%string
      else None
  end.

(** [(k.strip() for k in v if k.strip())] *)
Definition stripped_nonempty (v : list string) : list string :=
  Py.strip <$> List.filter (fun k => negb (Py.is_empty (Py.strip k))) v.

(** [validate_keywords] *)
Definition validate_keywords (v : list string) : field_result (list string) :=
  let keywords := elements (list_to_set (stripped_nonempty v) : gset string) in
  match keywords with
  | [] => Rejected "At least one non-empty keyword is required"
  | _ => Accepted keywords
  end.

Definition valid_tones : list string :=
  ["neutral"; "humorous"; "dark"; "epic"; "romantic"; "mysterious"; "dramatic"]%string.

(** [validate_tone]: [v.lower()] on [None] raises. *)
Definition validate_tone (v : option string) : field_result (option string) :=
  match v with
  | None => Raised (PyException "AttributeError"
                      "'NoneType' object has no attribute 'lower'")
  | Some s =>
      if bool_decide (Py.lower s ∈ valid_tones)
      then Accepted (Some (Py.lower s))
      else Rejected ("Tone must be one of: " +:+ Py.join ", " valid_tones)
  end.

(** [validate_length_range]; [data_max] is [info.data.get("max_length")]
    when the key is there, and [None] when [max_length] failed before. *)
Definition validate_length_range (v : option Z) (data_max : option (option Z))
  : field_result (option Z) :=
  match v with
  | None => Accepted v
  | Some n =>
      if n =? 0 then Accepted v
      else match data_max with
           | None => Accepted v
           | Some None =>
               Raised (PyException "TypeError"
                 "'>' not supported between instances of 'int' and 'NoneType'")
           | Some (Some m) =>
               if m <? n
               then Rejected "min_length cannot be greater than max_length"
               else Accepted v
           end
  end.

(** The fields, each with its [Field] constraints first and its validator
    (mode "after") second; an absent optional field takes its default
    without being validated. *)
Definition field_keywords (v : list string) : field_result (list string) :=
  match check_size 1 10 (length v) with
  | Some msg => Rejected msg
  | None => validate_keywords v
  end.

Definition field_genre (v : string) : field_result string :=
  match check_length 3 50 v with
  | Some msg => Rejected msg
  | None => Accepted v
  end.

Definition field_tone (v : option (option string)) : field_result (option string) :=
  match v with
  | None => Accepted (Some "neutral"%string)
  | Some t => validate_tone t
  end.

Definition field_max_length (v : option (option Z)) : field_result (option Z) :=
  match v with
  | None => Accepted (Some 500)
  | Some m =>
      match check_range 100 2000 m with
      | Some msg => Rejected msg
      | None => Accepted m
      end
  end.

Definition field_min_length (v : option (option Z)) (data_max : option (option Z))
  : field_result (option Z) :=
  match v with
  | None => Accepted None
  | Some m =>
      match check_range 50 1000 m with
      | Some msg => Rejected msg
      | None => validate_length_range m data_max
      end
  end.

Inductive validation : Type :=
  | Valid (r : StoryGenerationRequest)
  | Invalid (errors : list (string * string))
      (* ValidationError: one (field, message) entry per rejected field *)
  | Crashed (e : py_exception).
      (* an exception that is not a validation error left a validator *)

Definition field_errors {A} (name : string) (f : field_result A)
  : list (string * string) :=
  match f with Rejected msg => [(name, msg)] | _ => [] end.

Definition validated_value {A} (f : field_result A) : option A :=
  match f with Accepted a => Some a | _ => None end.

(** Validation of the model: fields in declaration order, errors
    accumulated, [info.data] holding the fields accepted so far. *)
Definition model_validate (raw : RawRequest) : validation :=
  let fk := field_keywords (raw_keywords raw) in
  let fg := field_genre (raw_genre raw) in
  match field_tone (raw_tone raw) with
  | Raised e => Crashed e
  | ft =>
      let fmax := field_max_length (raw_max_length raw) in
      match field_min_length (raw_min_length raw) (validated_value fmax) with
      | Raised e => Crashed e
      | fmin =>
          match fk, fg, ft, fmax, fmin with
          | Accepted k, Accepted g, Accepted t, Accepted mx, Accepted mn =>
              Valid {| keywords := k; genre := g; tone := t;
                       max_length := mx; min_length := mn |}
          | _, _, _, _, _ =>
              Invalid (field_errors "keywords" fk ++ field_errors "genre" fg
                       ++ field_errors "tone" ft
                       ++ field_errors "max_length" fmax
                       ++ field_errors "min_length" fmin)
          end
      end
  end.

(** ** The observable world and the monad of the service code *)

Inductive json : Type :=
  | JNull
  | JStr (s : string)
  | JInt (n : Z)
  | JList (l : list string).

Definition json_of_opt_str (o : option string) : json :=
  match o with Some s => JStr s | None => JNull end.

Definition json_of_opt_int (o : option Z) : json :=
  match o with Some n => JInt n | None => JNull end.

Inductive log_level : Type := DEBUG | INFO | WARNING | ERROR.

Record log_event : Type := {
  level : log_level;
  event : string;
  fields : list (string * json)
}.

(** Everything a request leaves behind: how often the upstream chain was
    invoked, the log (oldest entry first) and the backoff sleeps taken. *)
Record world : Type := {
  invocations : nat;
  log : list log_event;
  sleeps : list Z
}.

Definition world0 : world := {| invocations := 0; log := []; sleeps := [] |}.

Inductive result (A : Type) : Type :=
  | Ok (a : A)
  | Exc (e : py_exception).
Arguments Ok {A} a.
Arguments Exc {A} e.

Definition M (A : Type) : Type := world -> result A * world.

Definition ret {A} (a : A) : M A := fun w => (Ok a, w).

Definition bind {A B} (m : M A) (k : A -> M B) : M B :=
  fun w => match m w with
           | (Ok a, w') => k a w'
           | (Exc e, w') => (Exc e, w')
           end.

Definition raise {A} (e : py_exception) : M A := fun w => (Exc e, w).

(** [try: body / except Exception as e: handler(e)] *)
Definition try_except {A} (body : M A) (handler : py_exception -> M A) : M A :=
  fun w => match body w with
           | (Ok a, w') => (Ok a, w')
           | (Exc e, w') => handler e w'
           end.

Declare Scope py_scope.
Delimit Scope py_scope with py.
Notation "x <- m ;; k" := (bind m (fun x => k))
  (at level 100, m at next level, right associativity) : py_scope.
Notation "m ;; k" := (bind m (fun _ => k))
  (at level 100, right associativity) : py_scope.
Local Open Scope py_scope.

Definition emit (lv : log_level) (ev : string) (fs : list (string * json)) : M unit :=
  fun w => (Ok tt, {| invocations := invocations w;
                      log := log w ++ [{| level := lv; event := ev; fields := fs |}];
                      sleeps := sleeps w |}).

Definition sleep (seconds : Z) : M unit :=
  fun w => (Ok tt, {| invocations := invocations w; log := log w;
                      sleeps := sleeps w ++ [seconds] |}).

(** ** The upstream chain ([prompts.STANDARD_STORYTELLER | llm | parser]) *)

(** The variables the prompt template is rendered with. *)
Record prompt_inputs : Type := {
  in_keywords : string;
  in_genre : string;
  in_tone : option string;
  in_max_length : option Z;
  in_min_length : string
}.

Inductive chain_result : Type :=
  | Returns (text : string)
  | Raises (e : py_exception).

(** The language model is outside the repository: a chain is any function
    from the number of earlier invocations and the inputs to an outcome. *)
Definition chain : Type := nat -> prompt_inputs -> chain_result.

(** [await chain.ainvoke(inputs)] *)
Definition ainvoke (c : chain) (inputs : prompt_inputs) : M string :=
  fun w =>
    let w' := {| invocations := S (invocations w); log := log w;
                 sleeps := sleeps w |} in
    match c (invocations w) inputs with
    | Returns text => (Ok text, w')
    | Raises e => (Exc e, w')
    end.

(** ** The story generator ([services/story_generator.py]) *)

Record StoryGeneratorService : Type := {
  llm : option chain;   (* [None] when no OPENAI_API_KEY is configured *)
  rnd : nat             (* the draw [random.choice] makes for this request *)
}.

Definition nl : string := String Py.newline EmptyString.

(** Lines 62-68: the title is the first line of the trimmed text, the
    content the rest, when there is a newline to cut at. *)
Definition parse_response (full_response : string) : string * string :=
  match Py.split1 (Py.strip full_response) with
  | [line0; line1] =>
      (Py.strip (Py.remove_all "title:"
                   (Py.remove_all "Title:" (Py.strip line0))),
       Py.strip line1)
  | _ => ("Untitled Story"%string, full_response)
  end.

(** [request.min_length or "Not specified"] *)
Definition min_length_or_default (m : option Z) : string :=
  match m with
  | None => "Not specified"
  | Some n => if n =? 0 then "Not specified" else Py.str_of_int n
  end.

(** The body of [_generate_with_ai]: one attempt. *)
Definition generate_with_ai_attempt (c : chain) (request : StoryGenerationRequest)
  : M StoryGenerationResponse :=
  try_except
    (let inputs := {| in_keywords := Py.join ", " (keywords request);
                      in_genre := genre request;
                      in_tone := tone request;
                      in_max_length := max_length request;
                      in_min_length := min_length_or_default (min_length request) |} in
     emit DEBUG "invoking_ai_chain" [("keywords", JStr (in_keywords inputs))] ;;
     full_response <- ainvoke c inputs ;;
     let '(title, content) := parse_response full_response in
     emit INFO "ai_story_generated"
       [("title", JStr title);
        ("content_length", JInt (Z.of_nat (Py.len content)));
        ("keywords_count", JInt (Z.of_nat (length (keywords request))))] ;;
     ret {| title := title; content := content;
            keywords_used := keywords request |})
    (fun e =>
       if is_retryable e then
         (* Let retry handle these *)
         emit WARNING "ai_service_error"
           [("error", JStr (exc_str e)); ("error_type", JStr (type_name e))] ;;
         raise e
       else
         emit ERROR "story_generation_failed"
           [("error", JStr (exc_str e)); ("error_type", JStr (type_name e))] ;;
         raise (StoryGenerationError
                  ("Failed to generate story: " +:+ exc_str e)
                  (Some (type_name e)))).

(** [wait_exponential(multiplier, min, max)] of tenacity. *)
Definition wait_exponential (multiplier min max : Z) (attempt_number : nat) : Z :=
  Z.max (Z.max 0 min)
        (Z.min (multiplier * 2 ^ (Z.of_nat attempt_number - 1)) max).

(** The [@retry] decorator: [left] is how many attempts
    [stop_after_attempt] still allows after the one numbered
    [attempt_number]. An exception outside [retry_if_exception_type] leaves
    as it is; when the attempts are used up tenacity raises [RetryError]
    (the decorator does not set [reraise]). *)
Fixpoint retrying {A} (left : nat) (attempt_number : nat) (body : M A) : M A :=
  fun w =>
    match body w with
    | (Ok a, w') => (Ok a, w')
    | (Exc e, w') =>
        if is_retryable e then
          match left with
          | O => (Exc (RetryError e), w')
          | S left' =>
              let wait := wait_exponential 1 4 10 attempt_number in
              (emit WARNING "retrying_ai_request"
                 [("attempt", JInt (Z.of_nat attempt_number));
                  ("wait_seconds", JInt wait)] ;;
               sleep wait ;;
               retrying left' (S attempt_number) body) w'
          end
        else (Exc e, w')
    end.

(** [stop_after_attempt(n)]: attempts are numbered from 1. *)
Definition retry_stop_after_attempt {A} (n : nat) (body : M A) : M A :=
  retrying (Nat.pred n) 1 body.

Definition _generate_with_ai (c : chain) (request : StoryGenerationRequest)
  : M StoryGenerationResponse :=
  retry_stop_after_attempt 3 (generate_with_ai_attempt c request).

(** [random.choice(l)] with the draw [r]. *)
Definition random_choice {A} (r : nat) (l : list A) : option A :=
  l !! (r `mod` length l)%nat.

Definition str_of_opt_str (o : option string) : string :=
  match o with Some s => s | None => "None" end.

Definition str_of_opt_int (o : option Z) : string :=
  match o with Some n => Py.str_of_int n | None => "None" end.

Definition _generate_mock (self : StoryGeneratorService)
    (request : StoryGenerationRequest) : M StoryGenerationResponse :=
  match keywords request with
  | [] => raise (PyException "IndexError" "list index out of range")
  | keyword0 :: _ =>
      let titles :=
        [ "The Tale of the " +:+ Py.capitalize (genre request);
          "Journey to the " +:+ Py.capitalize keyword0 ] in
      let mock_content := Py.fstring
        [ "Once upon a time in a "; genre request; " world, there was a ";
          keyword0; ". ";
          "It was a "; str_of_opt_str (tone request); " day. The "; keyword0;
          " decided to go on an adventure. ";
          "Min length requested was "; str_of_opt_int (min_length request); ". ";
          "And they lived happily ever after." ]%string in
      emit INFO "mock_story_generated"
        [("keywords", JList (keywords request)); ("genre", JStr (genre request))] ;;
      match random_choice (rnd self) titles with
      | None => raise (PyException "IndexError" "Cannot choose from an empty sequence")
      | Some t =>
          ret {| title := t; content := mock_content;
                 keywords_used := keywords request |}
      end
  end.

(** [StoryGeneratorService.generate_story] *)
Definition generate_story (self : StoryGeneratorService)
    (request : StoryGenerationRequest) : M StoryGenerationResponse :=
  match llm self with
  | Some c => _generate_with_ai c request
  | None =>
      emit WARNING "openai_not_configured" [("message", JStr "Using mock generator")] ;;
      _generate_mock self request
  end.

(** ** The endpoint ([api/v1/router.py]) and the handlers ([api/errors.py]) *)

Record JSONResponse : Type := {
  status_code : Z;
  body : list (string * json)
}.

(** [body[key]] *)
Fixpoint body_get (key : string) (b : list (string * json)) : option json :=
  match b with
  | [] => None
  | (k, v) :: rest => if String.eqb k key then Some v else body_get key rest
  end.

Module Router.

(** The body of the [/generate] route, once the payload is validated and
    the API key accepted. *)
Definition generate_story (service : StoryGeneratorService)
    (request : StoryGenerationRequest) : M StoryGenerationResponse :=
  try_except
    (emit INFO "story_generation_requested"
       [("keywords", JList (keywords request)); ("genre", JStr (genre request));
        ("tone", json_of_opt_str (tone request))] ;;
     story <- generate_story service request ;;
     emit INFO "story_generation_completed" [("title", JStr (title story))] ;;
     ret story)
    (fun e =>
       (* If it's a known error, re-raise it so the handler catches it *)
       if is_JiraiyaException e then raise e
       else
         emit ERROR "story_generation_failed"
           [("error", JStr (exc_str e)); ("error_type", JStr (type_name e))] ;;
         raise (HTTPException 500 "Internal server error")).

End Router.

Module Errors.

Definition jiraiya_exception_handler (path : string) (exc : py_exception)
  : world -> JSONResponse * world :=
  fun w =>
    let error_msg := exc_str exc in
    match emit ERROR "jiraiya_error"
            [("error", JStr error_msg); ("path", JStr path)] w with
    | (_, w') =>
        ({| status_code := 500;
            body := [("type", JStr "about:blank");
                     ("title", JStr "Internal Server Error");
                     ("status", JInt 500);
                     ("detail", JStr error_msg);
                     ("instance", JStr path)] |}, w')
    end.

(** [exc] is the [StoryGenerationError] of message [msg] and attribute
    [detail]. *)
Definition story_generation_exception_handler (path : string)
    (msg : string) (detail : option string) : world -> JSONResponse * world :=
  fun w =>
    match emit ERROR "story_generation_error"
            [("error", JStr msg); ("detail", json_of_opt_str detail)] w with
    | (_, w') =>
        ({| status_code := 503;
            body := [("type", JStr "driver:error");
                     ("title", JStr "Story Generation Failed");
                     ("status", JInt 503);
                     ("detail", JStr msg);
                     ("instance", JStr path)] |}, w')
    end.

End Errors.

(** What the application answers to a validated, authorised POST on
    [path]: the story, or the response of the handler registered for the
    class of the exception that left the route ([main.py]); an
    [HTTPException] is rendered by the framework. *)
Definition post_generate (path : string) (service : StoryGeneratorService)
    (request : StoryGenerationRequest) : world -> JSONResponse * world :=
  fun w =>
    match Router.generate_story service request w with
    | (Ok story, w') =>
        ({| status_code := 200;
            body := [("title", JStr (title story));
                     ("content", JStr (content story));
                     ("keywords_used", JList (keywords_used story))] |}, w')
    | (Exc (StoryGenerationError msg detail), w') =>
        Errors.story_generation_exception_handler path msg detail w'
    | (Exc (RateLimitExceeded msg), w') =>
        Errors.jiraiya_exception_handler path (RateLimitExceeded msg) w'
    | (Exc (HTTPException code detail), w') =>
        ({| status_code := code; body := [("detail", JStr detail)] |}, w')
    | (Exc _, w') =>
        ({| status_code := 500; body := [("detail", JStr "Internal Server Error")] |}, w')
    end.

(** ** The parser as the specification words it *)

(** [s[n:]] *)
Fixpoint drop_chars (n : nat) (s : string) : string :=
  match n, s with
  | O, _ => s
  | S k, String _ r => drop_chars k r
  | S _, EmptyString => EmptyString
  end.

(** A marker is stripped when it leads the line, and only there. *)
Definition strip_leading_marker (s : string) : string :=
  if Py.startswith "Title:" s then drop_chars 6 s
  else if Py.startswith "title:" s then drop_chars 6 s
  else s.

(** The parser of the specification: two non-empty parts give the first
    one, without its leading marker and trimmed, as title and the trimmed
    second one as content. *)
Definition spec_parse_response (raw : string) : string * string :=
  match Py.split1 (Py.strip raw) with
  | [part0; part1] =>
      if negb (Py.is_empty part0) && negb (Py.is_empty part1)
      then (Py.strip (strip_leading_marker (Py.strip part0)), Py.strip part1)
      else ("Untitled Story"%string, raw)
  | _ => ("Untitled Story"%string, raw)
  end.

(** A line made only of markers and whitespace. *)
Inductive markers_and_blanks : string -> Prop :=
  | mb_empty : markers_and_blanks EmptyString
  | mb_Title (s : string) :
      markers_and_blanks s -> markers_and_blanks ("Title:" +:+ s)
  | mb_title (s : string) :
      markers_and_blanks s -> markers_and_blanks ("title:" +:+ s)
  | mb_blank (w s : string) :
      Py.is_blank w = true -> markers_and_blanks s -> markers_and_blanks (w +:+ s).

(** The same without the marker "Title:". *)
Inductive lower_markers_and_blanks : string -> Prop :=
  | lmb_empty : lower_markers_and_blanks EmptyString
  | lmb_title (s : string) :
      lower_markers_and_blanks s -> lower_markers_and_blanks ("title:" +:+ s)
  | lmb_blank (w s : string) :
      Py.is_blank w = true -> lower_markers_and_blanks s ->
      lower_markers_and_blanks (w +:+ s).

(** The response [_generate_with_ai] builds from the text of the chain. *)
Definition response_of (request : StoryGenerationRequest) (text : string)
  : StoryGenerationResponse :=
  {| title := fst (parse_response text);
     content := snd (parse_response text);
     keywords_used := keywords request |}.

(** What can leave the retry loop. *)
Definition retry_outcome (request : StoryGenerationRequest)
    (r : result StoryGenerationResponse) (w' : world) : Prop :=
  match r with
  | Ok resp => exists text, resp = response_of request text
  | Exc e =>
      (exists e0, is_retryable e0 = false
                  /\ e = StoryGenerationError
                           ("Failed to generate story: " +:+ exc_str e0)
                           (Some (type_name e0))
                  /\ In {| level := ERROR; event := "story_generation_failed";
                           fields := [("error", JStr (exc_str e0));
                                      ("error_type", JStr (type_name e0))] |}
                        (log w'))
      \/ (exists last, is_retryable last = true /\ e = RetryError last)
  end.

(** ** Scenarios used below *)

Definition ninja_raw : RawRequest :=
  {| raw_keywords := ["ninja"; " toad "; "ninja"; "  "]%string;
     raw_genre := "fantasy";
     raw_tone := Some (Some "Humorous"%string);
     raw_max_length := None;
     raw_min_length := Some (Some 100) |}.

Definition ninja_request : StoryGenerationRequest :=
  {| keywords := ["ninja"; "toad"]%string; genre := "fantasy";
     tone := Some "humorous"%string; max_length := Some 500;
     min_length := Some 100 |}.

(** An upstream that is rate-limited [failures] times and then answers. *)
Definition flaky_chain (failures : nat) (text : string) : chain :=
  fun n _ => if (n <? failures)%nat then Raises (RateLimitError "429")
             else Returns text.

Definition ai_service (c : chain) : StoryGeneratorService :=
  {| llm := Some c; rnd := 0 |}.

Definition mock_service (r : nat) : StoryGeneratorService :=
  {| llm := None; rnd := r |}.

(** ** Settings ([core/config.py]) and what is built from them *)

(** The settings the code reads. *)
Record Settings : Type := {
  VERSION : string;
  ENVIRONMENT : string;
  OPENAI_API_KEY : option string;
  API_KEY : option string
}.

(** Truth value of an [Optional[str]]: [None] and [""] are false. *)
Definition truthy (o : option string) : bool :=
  match o with
  | Some s => negb (Py.is_empty s)
  | None => false
  end.

(** [validate_openai_key] *)
Definition validate_openai_key (v : option string) : field_result (option string) :=
  match v with
  | Some s =>
      if negb (Py.is_empty s) && negb (Py.startswith "sk-" s)
      then Rejected "OpenAI API key must start with 'sk-'"
      else Accepted v
  | None => Accepted v
  end.

(** The field [OPENAI_API_KEY] when the environment supplies it:
    [Field(min_length=20)], then the validator. *)
Definition field_OPENAI_API_KEY (v : string) : field_result (option string) :=
  if (Py.len v <? 20)%nat then Rejected "string_too_short"
  else validate_openai_key (Some v).

Definition is_production (s : Settings) : bool :=
  String.eqb (ENVIRONMENT s) "production".

Definition is_development (s : Settings) : bool :=
  String.eqb (ENVIRONMENT s) "development".

(** [validate_settings] *)
Definition validate_settings (settings : Settings) : result unit :=
  if is_production settings then
    if negb (truthy (OPENAI_API_KEY settings)) then
      Exc (PyException "ValueError" "OPENAI_API_KEY is required in production")
    else
      match API_KEY settings with
      | None => Exc (PyException "ValueError" "API_KEY is required in production")
      | Some k =>
          if Py.is_empty k then
            Exc (PyException "ValueError" "API_KEY is required in production")
          else if (Py.len k <? 16)%nat then
            Exc (PyException "ValueError"
                   "API_KEY must be at least 16 characters in production")
          else Ok tt
      end
  else Ok tt.

(** [StoryGeneratorService.__init__]: [c] is the chain the client built
    from the key would give, [r] the draw of this request. *)
Definition StoryGeneratorService_init (settings : Settings) (c : chain) (r : nat)
  : StoryGeneratorService :=
  {| llm := if truthy (OPENAI_API_KEY settings) then Some c else None;
     rnd := r |}.

(** [verify_api_key] ([api/deps.py]); [api_key] is the [X-API-Key] header,
    [None] when the request has none. *)
Definition verify_api_key (settings : Settings) (api_key : option string)
  : result (option string) :=
  if truthy (API_KEY settings) && negb (bool_decide (api_key = API_KEY settings))
  then Exc (HTTPException 401 "Could not validate credentials")
  else Ok api_key.

(** How a POST on [/generate] ends: with a response (of the route, of a
    registered handler, or rendered from an [HTTPException]), with the
    framework's [RequestValidationError] for the rejected fields, or with
    an exception nothing in the repository handles. *)
Inductive endpoint_outcome : Type :=
  | Responds (resp : JSONResponse)
  | RequestValidationError (errors : list (string * string))
  | Propagates (e : py_exception).

(** The [/generate] endpoint as its signature has the framework run it:
    the dependency [verify_api_key] first, then the validation of the
    payload as a [StoryGenerationRequest], then the route. *)
Definition generate_endpoint (settings : Settings) (service : StoryGeneratorService)
    (path : string) (api_key : option string) (raw : RawRequest)
  : world -> endpoint_outcome * world :=
  fun w =>
    match verify_api_key settings api_key with
    | Exc (HTTPException code detail) =>
        (Responds {| status_code := code; body := [("detail", JStr detail)] |}, w)
    | Exc e => (Propagates e, w)
    | Ok _ =>
        match model_validate raw with
        | Invalid errors => (RequestValidationError errors, w)
        | Crashed e => (Propagates e, w)
        | Valid request =>
            match post_generate path service request w with
            | (resp, w') => (Responds resp, w')
            end
        end
    end.

(** The outcome of [client.models.list()] in the readiness probe. *)
Inductive probe_result : Type :=
  | Reachable
  | Unreachable (e : py_exception).

(** [health_status]: the flag and the entry [checks["openai"]]. *)
Record health_status : Type := {
  ready : bool;
  checks_openai : list (string * json)
}.

(** [readiness_check] ([api/v1/router.py]): the status code and the
    report. *)
Definition readiness_check (settings : Settings) (probe : probe_result)
  : world -> (Z * health_status) * world :=
  fun w =>
    let '(report, w') :=
      if truthy (OPENAI_API_KEY settings) then
        match probe with
        | Reachable =>
            ({| ready := true; checks_openai := [("status", JStr "healthy")] |}, w)
        | Unreachable e =>
            match emit WARNING "openai_health_check_failed"
                    [("error", JStr (exc_str e))] w with
            | (_, w1) =>
                ({| ready := false;
                    checks_openai := [("status", JStr "unhealthy");
                                      ("error", JStr (exc_str e))] |}, w1)
            end
        end
      else
        ({| ready := true;
            checks_openai := [("status", JStr "not_configured");
                              ("note", JStr "Running in mock mode")] |}, w) in
    ((if ready report then 200 else 503, report), w').

(** The inputs [_generate_with_ai] renders the prompt with. *)
Definition inputs_of (request : StoryGenerationRequest) : prompt_inputs :=
  {| in_keywords := Py.join ", " (keywords request);
     in_genre := genre request;
     in_tone := tone request;
     in_max_length := max_length request;
     in_min_length := min_length_or_default (min_length request) |}.

(** What one attempt yields, read off the outcome of the chain. *)
Definition attempt_result (request : StoryGenerationRequest) (o : chain_result)
  : result StoryGenerationResponse :=
  match o with
  | Returns text => Ok (response_of request text)
  | Raises e =>
      if is_retryable e then Exc e
      else Exc (StoryGenerationError
                  ("Failed to generate story: " +:+ exc_str e)
                  (Some (type_name e)))
  end.

(** What the retry loop yields, read off the outcome of the chain at its
    last invocation. *)
Definition final_result (request : StoryGenerationRequest) (o : chain_result)
  : result StoryGenerationResponse :=
  match o with
  | Raises e =>
      if is_retryable e then Exc (RetryError e) else attempt_result request o
  | Returns _ => attempt_result request o
  end.

(** * Properties *)

(** ** Examples of the string primitives *)

Example split1_two : Py.split1 "a
b
c" = ["a"; "b
c"]%string.
Proof. reflexivity. Qed.

Example remove_all_ex : Py.remove_all "Title:" "A Title: B" = "A  B"%string.
Proof. reflexivity. Qed.

Example strip_ex : Py.strip "  x y  " = "x y"%string.
Proof. reflexivity. Qed.

Example capitalize_ex : Py.capitalize "fANTASY" = "Fantasy"%string.
Proof. reflexivity. Qed.

Example str_of_int_ex : Py.str_of_int 120 = "120"%string /\ Py.str_of_int 0 = "0"%string.
Proof. split; reflexivity. Qed.


(** ** Runs of the scenarios *)

Example ninja_validates : model_validate ninja_raw = Valid ninja_request.
Proof. vm_compute. reflexivity. Qed.

Example flaky_twice :
  let '(r, w) := generate_story (ai_service (flaky_chain 2 ("Title: Foo" +:+ nl +:+ "Bar baz")))
                   ninja_request world0 in
  r = Ok {| title := "Foo"; content := "Bar baz"; keywords_used := ["ninja"; "toad"]%string |}
  /\ invocations w = 3%nat /\ sleeps w = [4; 4].
Proof. vm_compute. repeat split; reflexivity. Qed.

Example flaky_thrice :
  let '(r, w) := generate_story (ai_service (flaky_chain 3 "never")) ninja_request world0 in
  r = Exc (RetryError (RateLimitError "429")) /\ invocations w = 3%nat.
Proof. vm_compute. split; reflexivity. Qed.

Example mock_ninja :
  fst (generate_story (mock_service 1) ninja_request world0)
  = Ok {| title := "Journey to the Ninja";
          content := "Once upon a time in a fantasy world, there was a ninja. It was a humorous day. The ninja decided to go on an adventure. Min length requested was 100. And they lived happily ever after.";
          keywords_used := ["ninja"; "toad"]%string |}.
Proof. vm_compute. reflexivity. Qed.

(** ** Strings *)

Section StringFacts.

Import Py.

Lemma is_empty_true (s : string) : is_empty s = true <-> s = EmptyString.
Proof. destruct s; simpl; split; congruence. Qed.

Lemma is_empty_false (s : string) : is_empty s = false <-> s <> EmptyString.
Proof. destruct s; simpl; split; congruence. Qed.

Lemma string_length_ind (P : string -> Prop) :
  (forall s, (forall t, (String.length t < String.length s)%nat -> P t) -> P s) ->
  forall s, P s.
Proof.
  intros H s. remember (String.length s) as n eqn:E. revert s E.
  induction n as [n IH] using lt_wf_ind. intros s ->.
  apply H. intros t Ht. exact (IH _ Ht t eq_refl).
Qed.

Lemma drop_chars_length (n : nat) (s : string) :
  String.length (drop_chars n s) = (String.length s - n)%nat.
Proof.
  revert s. induction n as [|n IH]; intros [|c r]; cbn; try reflexivity.
  apply IH.
Qed.

Lemma drop_chars_app (n : nat) (a b : string) :
  (n <= String.length a)%nat -> drop_chars n (a +:+ b) = drop_chars n a +:+ b.
Proof.
  revert a. induction n as [|n IH]; intros [|c r]; cbn; intros H;
    try reflexivity; try lia.
  apply IH. lia.
Qed.

Ltac case_ifs :=
  repeat match goal with
         | |- context [if ?b then _ else _] => destruct b
         end.

(** *** The character a string begins with *)

Lemma head_width (s : string) (c : N) (w : nat) :
  head s = Some (c, w) -> (1 <= w <= 4)%nat /\ (w <= String.length s)%nat.
Proof.
  destruct s as [|a0 [|a1 [|a2 [|a3 r]]]]; cbn [head String.length];
    try discriminate; case_ifs; intros [= <- <-]; lia.
Qed.

(** The whitespace character a string begins with is still there when the
    string is extended. *)
Lemma head_app (s x : string) (c : N) (w : nat) :
  head s = Some (c, w) -> isspace c = true -> head (s +:+ x) = Some (c, w).
Proof.
  assert (isspace 65533 = false) as Hno by reflexivity.
  destruct s as [|a0 [|a1 [|a2 [|a3 r]]]]; cbn [head String.append];
    try discriminate; case_ifs; intros [= <- <-] Hs;
    try reflexivity; congruence.
Qed.

Lemma space_width_bound (s : string) :
  (space_width s <= 4)%nat /\ (space_width s <= String.length s)%nat.
Proof.
  unfold space_width. destruct (head s) as [[c w]|] eqn:E; [|lia].
  apply head_width in E. destruct (isspace c); lia.
Qed.

Lemma space_width_app (s x : string) :
  space_width s <> 0%nat -> space_width (s +:+ x) = space_width s.
Proof.
  unfold space_width. destruct (head s) as [[c w]|] eqn:E; [|congruence].
  destruct (isspace c) eqn:Hs; [|congruence].
  intros _. rewrite (head_app _ x _ _ E Hs), Hs. reflexivity.
Qed.

(** [decode] reads the character the string begins with, and goes on. *)
Lemma decode_unfold (s : string) :
  decode s
  = match head s with
    | Some (c, w) => c :: decode (drop_chars w s)
    | None => []
    end.
Proof.
  destruct s as [|a0 r1]; [reflexivity|].
  cbn [decode]. destruct (head (String a0 r1)) as [[c w]|] eqn:E; [|reflexivity].
  pose proof (head_width _ _ _ E) as [Hw Hl].
  destruct w as [|[|[|[|[|n]]]]]; try lia; try reflexivity;
    destruct r1 as [|a1 [|a2 [|a3 r]]]; cbn in Hl; try lia; reflexivity.
Qed.

(** A string has at most as many characters as bytes. *)
Lemma len_le_length (s : string) : (len s <= String.length s)%nat.
Proof.
  unfold len. induction s as [s IH] using string_length_ind.
  rewrite decode_unfold. destruct (head s) as [[c w]|] eqn:E; [|cbn; lia].
  pose proof (head_width _ _ _ E) as [Hw Hl].
  assert (String.length (drop_chars w s) < String.length s)%nat as Hlt
    by (rewrite drop_chars_length; lia).
  pose proof (IH _ Hlt) as Hd. rewrite drop_chars_length in Hd.
  cbn [length]. lia.
Qed.

(** *** Trimming *)

(** [lstrip] drops the whitespace character the string begins with, if
    any, and goes on. *)
Lemma lstrip_unfold (s : string) :
  lstrip s
  = match space_width s with
    | O => s
    | w => lstrip (drop_chars w s)
    end.
Proof.
  pose proof (space_width_bound s) as [H4 Hl].
  destruct s as [|a0 r1]; [reflexivity|].
  cbn [lstrip].
  destruct (space_width (String a0 r1)) as [|[|[|[|[|n]]]]]; try lia;
    try reflexivity;
    destruct r1 as [|a1 [|a2 [|a3 r]]]; cbn in Hl; try lia; reflexivity.
Qed.

Lemma lstrip_fixed (s : string) : space_width s = 0%nat -> lstrip s = s.
Proof. intros H. rewrite lstrip_unfold, H. reflexivity. Qed.

Lemma lstrip_step (s : string) :
  space_width s <> 0%nat -> lstrip s = lstrip (drop_chars (space_width s) s).
Proof.
  intros H. rewrite lstrip_unfold at 1.
  destruct (space_width s); [congruence|reflexivity].
Qed.

Lemma drop_space_shorter (s : string) :
  space_width s <> 0%nat ->
  (String.length (drop_chars (space_width s) s) < String.length s)%nat.
Proof.
  intros H. pose proof (space_width_bound s) as [_ Hl].
  rewrite drop_chars_length. lia.
Qed.

(** What [lstrip] returns begins with no whitespace character. *)
Lemma lstrip_no_space (s : string) : space_width (lstrip s) = 0%nat.
Proof.
  induction s as [s IH] using string_length_ind.
  destruct (Nat.eq_dec (space_width s) 0%nat) as [E|E].
  - rewrite (lstrip_fixed _ E). exact E.
  - rewrite (lstrip_step _ E). apply IH, drop_space_shorter, E.
Qed.

Lemma lstrip_idempotent (s : string) : lstrip (lstrip s) = lstrip s.
Proof. apply lstrip_fixed, lstrip_no_space. Qed.

Lemma lstrip_length (s : string) :
  (String.length (lstrip s) <= String.length s)%nat.
Proof.
  induction s as [s IH] using string_length_ind.
  destruct (Nat.eq_dec (space_width s) 0%nat) as [E|E].
  - rewrite (lstrip_fixed _ E). lia.
  - rewrite (lstrip_step _ E).
    pose proof (drop_space_shorter _ E) as Hlt.
    pose proof (IH _ Hlt). lia.
Qed.

Lemma lstrip_empty_iff (s : string) :
  lstrip s = EmptyString <-> is_blank s = true.
Proof. unfold is_blank. symmetry. apply is_empty_true. Qed.

(** Whitespace in front of a string does not count. *)
Lemma lstrip_blank_app (a b : string) :
  is_blank a = true -> lstrip (a +:+ b) = lstrip b.
Proof.
  induction a as [a IH] using string_length_ind. intros Ha.
  destruct a as [|c r]; [reflexivity|].
  apply lstrip_empty_iff in Ha.
  destruct (Nat.eq_dec (space_width (String c r)) 0%nat) as [E|E].
  - rewrite (lstrip_fixed _ E) in Ha. discriminate.
  - rewrite (lstrip_step _ E) in Ha.
    pose proof (space_width_bound (String c r)) as [_ Hl].
    rewrite lstrip_step by (rewrite space_width_app; exact E).
    rewrite (space_width_app _ b E), (drop_chars_app _ _ b Hl).
    apply IH; [apply drop_space_shorter, E|apply lstrip_empty_iff, Ha].
Qed.

Lemma is_blank_app (a b : string) :
  is_blank a = true -> is_blank (a +:+ b) = is_blank b.
Proof. intros H. unfold is_blank. rewrite (lstrip_blank_app _ _ H). reflexivity. Qed.

Lemma is_blank_nl : is_blank nl = true.
Proof. reflexivity. Qed.

Lemma rstrip_empty_iff (s : string) :
  rstrip s = EmptyString <-> is_blank s = true.
Proof.
  destruct s as [|c r]; [split; reflexivity|].
  cbn [rstrip]. destruct (is_blank (String c r)); split; congruence.
Qed.

Lemma is_blank_lstrip (s : string) : is_blank (lstrip s) = is_blank s.
Proof. unfold is_blank. rewrite lstrip_idempotent. reflexivity. Qed.

(** Trimming yields the empty string exactly on blank strings. *)
Lemma strip_empty_iff (s : string) :
  strip s = EmptyString <-> is_blank s = true.
Proof.
  unfold strip. rewrite rstrip_empty_iff, is_blank_lstrip. tauto.
Qed.

(** [rstrip] cuts a blank end off. *)
Lemma rstrip_split (s : string) :
  exists t, s = rstrip s +:+ t /\ is_blank t = true.
Proof.
  induction s as [|c r (t & E & Ht)]; [exists EmptyString; split; reflexivity|].
  cbn [rstrip]. destruct (is_blank (String c r)) eqn:B.
  - exists (String c r). split; [reflexivity|exact B].
  - exists t. split; [cbn; rewrite <- E; reflexivity|exact Ht].
Qed.

Lemma rstrip_head (s : string) (c : ascii) (r : string) :
  rstrip s = String c r -> exists t, s = String c t.
Proof.
  destruct s as [|d t]; cbn [rstrip]; [discriminate|].
  destruct (is_blank (String d t)); [discriminate|].
  intros [= <- _]. eauto.
Qed.

(** A trimmed string has no blank suffix but the empty one... *)
Lemma rstrip_no_blank_suffix (s x y : string) :
  rstrip s = x +:+ y -> is_blank y = true -> y = EmptyString.
Proof.
  revert x y. induction s as [|c r IH]; intros x y; cbn [rstrip].
  - destruct x; cbn; [congruence|discriminate].
  - destruct (is_blank (String c r)) eqn:B.
    + destruct x; cbn; [congruence|discriminate].
    + destruct x as [|d x']; cbn.
      * intros <- Hy. exfalso.
        destruct (rstrip_split r) as (t & E & Ht).
        assert (is_blank (String c r) = true) as B'.
        { rewrite E.
          change (String c (rstrip r +:+ t)) with (String c (rstrip r) +:+ t).
          rewrite (is_blank_app _ _ Hy). exact Ht. }
        congruence.
      * intros [= _ Hr]. apply (IH x'). exact Hr.
Qed.

Lemma strip_no_blank_suffix (s x y : string) :
  strip s = x +:+ y -> is_blank y = true -> y = EmptyString.
Proof. unfold strip. apply rstrip_no_blank_suffix. Qed.

(** ... and begins with no whitespace character. *)
Lemma strip_no_space (s : string) : space_width (strip s) = 0%nat.
Proof.
  unfold strip. destruct (rstrip_split (lstrip s)) as (t & E & _).
  destruct (Nat.eq_dec (space_width (rstrip (lstrip s))) 0%nat) as [H|H]; [exact H|].
  exfalso. pose proof (space_width_app _ t H) as Ha.
  rewrite <- E, lstrip_no_space in Ha. congruence.
Qed.

Lemma lstrip_strip (s : string) : lstrip (strip s) = strip s.
Proof. apply lstrip_fixed, strip_no_space. Qed.

(** *** Cutting at the first newline *)

Lemma split1_no_newline (s : string) :
  has_newline s = false -> split1 s = [s].
Proof.
  induction s as [|c r IH]; simpl; [reflexivity|].
  intros H. apply orb_false_iff in H as [Hc Hr].
  rewrite Hc, (IH Hr). reflexivity.
Qed.

Lemma split1_at_newline (a b : string) :
  has_newline a = false -> split1 (a +:+ nl +:+ b) = [a; b].
Proof.
  unfold nl. induction a as [|c r IH]; simpl; [reflexivity|].
  intros H. apply orb_false_iff in H as [Hc Hr].
  simpl in IH. rewrite Hc, (IH Hr). reflexivity.
Qed.

(** Every string either has no newline or is cut, in one way only, at its
    first one. *)
Lemma first_newline (s : string) :
  has_newline s = false \/
  exists a b, s = a +:+ nl +:+ b /\ has_newline a = false.
Proof.
  induction s as [|c r IH]; simpl; [left; reflexivity|].
  destruct (Ascii.eqb c newline) eqn:E; simpl.
  - right. exists EmptyString, r. apply Ascii.eqb_eq in E. subst c. split; reflexivity.
  - destruct IH as [IH|(a & b & -> & Ha)]; [left; exact IH|].
    right. exists (String c a), b. simpl. rewrite E, Ha. split; reflexivity.
Qed.

Lemma split1_two_inv (s a b : string) :
  split1 s = [a; b] -> s = a +:+ nl +:+ b /\ has_newline a = false.
Proof.
  destruct (first_newline s) as [H|(a' & b' & -> & Ha')].
  - rewrite (split1_no_newline _ H). discriminate.
  - rewrite (split1_at_newline _ _ Ha'). intros [= <- <-]. split; [reflexivity|exact Ha'].
Qed.

Lemma has_newline_app (a b : string) :
  has_newline (a +:+ nl +:+ b) = true.
Proof.
  unfold nl. induction a as [|c r IH]; simpl; [reflexivity|].
  simpl in IH. rewrite IH. apply orb_true_r.
Qed.

Lemma append_assoc (a b c : string) : (a +:+ b) +:+ c = a +:+ b +:+ c.
Proof. induction a as [|x a IH]; cbn; [reflexivity|]. rewrite IH. reflexivity. Qed.

Lemma append_length (a b : string) :
  String.length (a +:+ b) = (String.length a + String.length b)%nat.
Proof. induction a as [|c a IH]; cbn; [reflexivity|]. rewrite IH. reflexivity. Qed.

(** Both sides of the cut of a trimmed text hold a non-blank character. *)
Lemma strip_cut_parts (raw a b : string) :
  strip raw = a +:+ nl +:+ b ->
  is_blank a = false /\ is_blank b = false.
Proof.
  intros H. split.
  - destruct (is_blank a) eqn:Ba; [exfalso|reflexivity].
    pose proof (lstrip_strip raw) as L.
    rewrite H, (lstrip_blank_app _ _ Ba), (lstrip_blank_app _ _ is_blank_nl) in L.
    pose proof (lstrip_length b) as Hl. rewrite L in Hl.
    rewrite !append_length in Hl. cbn in Hl. lia.
  - destruct (is_blank b) eqn:Hb; [|reflexivity].
    assert (nl +:+ b = EmptyString) as Hn.
    { apply (strip_no_blank_suffix raw a); [exact H|].
      rewrite (is_blank_app _ _ is_blank_nl). exact Hb. }
    discriminate.
Qed.

Lemma is_blank_false_nonempty (s : string) :
  is_blank s = false -> s <> EmptyString.
Proof. intros H ->. discriminate. Qed.

Lemma strip_nonblank (s : string) :
  is_blank s = false -> strip s <> EmptyString.
Proof. intros H E. apply strip_empty_iff in E. congruence. Qed.

End StringFacts.

(** *** Case mapping on ASCII text *)

Section AsciiCase.

Import Py.

(** On an ASCII character the Unicode tables give the ASCII mapping. *)
Lemma ascii_case_tables (c : ascii) :
  (N_of_ascii c <? 128)%N = true ->
  (N_of_ascii c =? 931)%N = false
  /\ to_lower_full (N_of_ascii c) = [N_of_ascii (lower_char c)]
  /\ to_title_full (N_of_ascii c) = [N_of_ascii (upper_char c)]
  /\ (N_of_ascii (lower_char c) <? 128)%N = true
  /\ (N_of_ascii (upper_char c) <? 128)%N = true.
Proof.
  destruct c as [[] [] [] [] [] [] [] []]; vm_compute; intros H;
    try discriminate H; repeat split; reflexivity.
Qed.

Lemma decode_ascii_cons (c : ascii) (r : string) :
  (N_of_ascii c <? 128)%N = true ->
  decode (String c r) = N_of_ascii c :: decode r.
Proof. intros H. rewrite decode_unfold. cbn [head]. rewrite H. reflexivity. Qed.

Lemma encode_ascii_cons (n : N) (l : list N) :
  (n <? 128)%N = true -> encode (n :: l) = String (ascii_of_N n) (encode l).
Proof. intros H. cbn [encode]. unfold encode_cp. rewrite H. reflexivity. Qed.

Lemma lower_from_ascii (before : bool) (s : string) :
  is_ascii s = true ->
  encode (lower_from before (decode s)) = map_chars lower_char s.
Proof.
  revert before. induction s as [|c r IH]; intros before H; [reflexivity|].
  cbn [is_ascii] in H. apply andb_true_iff in H as [Hc Hr].
  destruct (ascii_case_tables c Hc) as (Hs & Hl & _ & Hl128 & _).
  rewrite (decode_ascii_cons _ _ Hc). cbn [lower_from]. rewrite Hs, Hl.
  cbn [app]. rewrite (encode_ascii_cons _ _ Hl128), ascii_N_embedding.
  rewrite (IH _ Hr). reflexivity.
Qed.

(** On ASCII text [lower] maps the letters A..Z and nothing else... *)
Lemma lower_ascii (s : string) :
  is_ascii s = true -> lower s = map_chars lower_char s.
Proof. apply lower_from_ascii. Qed.


End AsciiCase.

(** *** Removing a marker *)

Section RemoveFacts.

Import Py.

Lemma startswith_app (p s : string) : startswith p (p +:+ s) = true.
Proof.
  induction p as [|c r IH]; simpl; [reflexivity|].
  rewrite Ascii.eqb_refl. exact IH.
Qed.

Lemma remove_scan_skip (old p s : string) :
  remove_scan old (String.length p) (p +:+ s) = remove_scan old O s.
Proof. induction p as [|c r IH]; simpl; [reflexivity|exact IH]. Qed.

(** A leading occurrence is removed and the scan goes on after it. *)
Lemma remove_all_prefix (old s : string) :
  remove_all old (old +:+ s) = remove_all old s.
Proof.
  unfold remove_all. destruct old as [|c p]; simpl; [reflexivity|].
  rewrite Ascii.eqb_refl, startswith_app. simpl.
  apply remove_scan_skip.
Qed.

(** Where the marker does not occur nothing changes. *)
Lemma remove_all_absent (old s : string) :
  occurs old s = false -> remove_all old s = s.
Proof.
  unfold remove_all. destruct (is_empty old) eqn:E; [reflexivity|].
  induction s as [|c r IH]; [reflexivity|].
  intros H. cbn [occurs] in H. apply orb_false_iff in H as [Hs Hr].
  cbn [remove_scan]. rewrite Hs, (IH Hr). reflexivity.
Qed.

End RemoveFacts.

(** *** Markers and whitespace *)

Section ScanBlank.

Import Py.

(** The marker begins with an ASCII character that is no whitespace. *)
Variable x : ascii.
Variable old' : string.
Hypothesis x_ascii : (N_of_ascii x <? 128)%N = true.
Hypothesis x_not_space : isspace (N_of_ascii x) = false.

Lemma x_not_cont : is_cont (N_of_ascii x) = false.
Proof.
  unfold is_cont. apply N.ltb_lt in x_ascii.
  destruct (N.leb_spec 128 (N_of_ascii x)); [lia|reflexivity].
Qed.

Lemma byte_differs (f : N -> bool) (a : ascii) :
  f (N_of_ascii x) <> f (N_of_ascii a) -> Ascii.eqb x a = false.
Proof.
  intros H. destruct (Ascii.eqb_spec x a) as [<-|]; [congruence|reflexivity].
Qed.

Lemma scan_byte (a : ascii) (t : string) :
  Ascii.eqb x a = false ->
  remove_scan (String x old') 0 (String a t)
  = String a (remove_scan (String x old') 0 t).
Proof. intros H. cbn [remove_scan startswith]. rewrite H. reflexivity. Qed.

Ltac differs :=
  pose proof x_not_cont;
  first [ apply (byte_differs isspace); congruence
        | apply (byte_differs (fun n => (n <? 128)%N)); congruence
        | apply (byte_differs is_cont); congruence ].

(** No byte of a whitespace character begins an occurrence of the marker. *)
Lemma scan_space_char (w : string) :
  space_width w <> 0%nat ->
  exists p,
    w = p +:+ drop_chars (space_width w) w
    /\ forall t, remove_scan (String x old') 0 (p +:+ t)
                 = p +:+ remove_scan (String x old') 0 t.
Proof.
  unfold space_width.
  destruct w as [|a0 [|a1 [|a2 [|a3 r]]]]; cbn [head];
    repeat match goal with
           | |- context [if ?b then _ else _] => destruct b eqn:?
           end;
    intros Hne; try congruence;
    repeat match goal with
           | H : (_ && _) = true |- _ => apply andb_true_iff in H as [? ?]
           end;
    try (vm_compute in Heqb0; discriminate);
    cbn [drop_chars];
    match goal with
    | |- exists p, String ?a0 ?r = p +:+ ?r /\ _ =>
        exists (String a0 EmptyString)
    | |- exists p, String ?a0 (String ?a1 ?r) = p +:+ ?r /\ _ =>
        exists (String a0 (String a1 EmptyString))
    | |- exists p, String ?a0 (String ?a1 (String ?a2 ?r)) = p +:+ ?r /\ _ =>
        exists (String a0 (String a1 (String a2 EmptyString)))
    | |- exists p, String ?a0 (String ?a1 (String ?a2 (String ?a3 ?r))) = p +:+ ?r /\ _ =>
        exists (String a0 (String a1 (String a2 (String a3 EmptyString))))
    end;
    (split; [reflexivity|]); intros t; cbn [String.append];
    repeat (rewrite scan_byte by differs); reflexivity.
Qed.

(** The scan copies leading whitespace and goes on behind it. *)
Lemma remove_scan_blank (w s : string) :
  is_blank w = true ->
  remove_scan (String x old') 0 (w +:+ s)
  = w +:+ remove_scan (String x old') 0 s.
Proof.
  induction w as [w IH] using string_length_ind. intros Hw.
  destruct w as [|c r]; [reflexivity|].
  apply lstrip_empty_iff in Hw.
  destruct (Nat.eq_dec (space_width (String c r)) 0%nat) as [E|E].
  - rewrite (lstrip_fixed _ E) in Hw. discriminate.
  - rewrite (lstrip_step _ E) in Hw.
    destruct (scan_space_char _ E) as (p & Hp & Hscan).
    pose proof (drop_space_shorter _ E) as Hlt.
    apply lstrip_empty_iff in Hw.
    remember (drop_chars (space_width (String c r)) (String c r)) as d eqn:Hd.
    clear Hd. rewrite Hp, !append_assoc, Hscan.
    rewrite (IH d Hlt Hw). reflexivity.
Qed.

End ScanBlank.

Section Markers.

Import Py.

Lemma remove_all_blank_Title (w s : string) :
  is_blank w = true ->
  remove_all "Title:" (w +:+ s) = w +:+ remove_all "Title:" s.
Proof. apply (remove_scan_blank "T" "itle:"); reflexivity. Qed.

Lemma remove_all_blank_title (w s : string) :
  is_blank w = true ->
  remove_all "title:" (w +:+ s) = w +:+ remove_all "title:" s.
Proof. apply (remove_scan_blank "t" "itle:"); reflexivity. Qed.

Lemma remove_Title_markers (m : string) :
  markers_and_blanks m -> lower_markers_and_blanks (remove_all "Title:" m).
Proof.
  induction 1 as [|s _ IH|s _ IH|w s Hw _ IH].
  - constructor.
  - rewrite remove_all_prefix. exact IH.
  - change (remove_all "Title:" ("title:" +:+ s))
      with ("title:" +:+ remove_all "Title:" s).
    constructor. exact IH.
  - rewrite (remove_all_blank_Title _ _ Hw). constructor; assumption.
Qed.

Lemma remove_title_markers (m : string) :
  lower_markers_and_blanks m -> is_blank (remove_all "title:" m) = true.
Proof.
  induction 1 as [|s _ IH|w s Hw _ IH].
  - reflexivity.
  - rewrite remove_all_prefix. exact IH.
  - rewrite (remove_all_blank_title _ _ Hw), (is_blank_app _ _ Hw). exact IH.
Qed.

(** Removing the markers from a line made only of markers and whitespace
    leaves whitespace. *)
Lemma markers_removed_blank (m : string) :
  markers_and_blanks m ->
  is_blank (remove_all "title:" (remove_all "Title:" m)) = true.
Proof. intros H. apply remove_title_markers, remove_Title_markers, H. Qed.

End Markers.

(** ** The response parser *)

Section Parser.

Import Py.

Lemma parse_response_one_line (raw : string) :
  has_newline (strip raw) = false ->
  parse_response raw = ("Untitled Story"%string, raw).
Proof.
  intros H. unfold parse_response. rewrite (split1_no_newline _ H). reflexivity.
Qed.

Lemma parse_response_two_parts (raw a b : string) :
  strip raw = a +:+ nl +:+ b -> has_newline a = false ->
  parse_response raw
  = (strip (remove_all "title:" (remove_all "Title:" (strip a))), strip b).
Proof.
  intros H Ha. unfold parse_response. rewrite H, (split1_at_newline _ _ Ha).
  reflexivity.
Qed.

(** The content of a parsed response is empty only for an empty text. *)
Lemma parse_response_content_empty (raw : string) :
  snd (parse_response raw) = EmptyString <-> raw = EmptyString.
Proof.
  destruct (first_newline (strip raw)) as [H|(a & b & Hab & Ha)].
  - rewrite (parse_response_one_line _ H). simpl. tauto.
  - rewrite (parse_response_two_parts _ _ _ Hab Ha). simpl.
    destruct (strip_cut_parts _ _ _ Hab) as [_ Hb]. split.
    + intros E. exfalso. exact (strip_nonblank _ Hb E).
    + intros ->. destruct a; discriminate.
Qed.

End Parser.

(** C3, as the code has it. The text is trimmed and cut at its first
    newline. Without a newline the title is "Untitled Story" and the
    content the raw text. With one, both parts hold a non-blank character,
    the title is the trimmed first part with every occurrence of
    "Title:" and then of "title:" removed (wherever it stands), trimmed
    again, and the content is the trimmed second part. The two inputs of
    the specification give the results it names. *)
Theorem parse_response_cases :
  (forall raw : string,
     (Py.has_newline (Py.strip raw) = false
      /\ parse_response raw = ("Untitled Story"%string, raw))
     \/ (exists a b : string,
           Py.strip raw = a +:+ nl +:+ b
           /\ Py.has_newline a = false
           /\ Py.is_blank a = false /\ Py.is_blank b = false
           /\ parse_response raw
              = (Py.strip (Py.remove_all "title:"
                             (Py.remove_all "Title:" (Py.strip a))),
                 Py.strip b)))
  /\ parse_response ("Title: Foo" +:+ nl +:+ "Bar baz")
     = ("Foo"%string, "Bar baz"%string)
  /\ parse_response "Just one line"
     = ("Untitled Story"%string, "Just one line"%string).
Proof.
  split; [|split; reflexivity].
  intros raw.
  destruct (first_newline (Py.strip raw)) as [H|(a & b & Hab & Ha)].
  - left. split; [exact H|]. apply parse_response_one_line, H.
  - right. exists a, b.
    destruct (strip_cut_parts _ _ _ Hab) as [Hba Hbb].
    repeat split; try assumption.
    apply parse_response_two_parts; assumption.
Qed.

(** C3 as stated fails: a marker that does not lead the first line is
    removed all the same, where the specification keeps it. *)
Lemma parse_response_inner_marker :
  parse_response ("A Title: B" +:+ nl +:+ "C") = ("A  B"%string, "C"%string)
  /\ spec_parse_response ("A Title: B" +:+ nl +:+ "C")
     = ("A Title: B"%string, "C"%string)
  /\ parse_response ("A Title: B" +:+ nl +:+ "C")
     <> spec_parse_response ("A Title: B" +:+ nl +:+ "C").
Proof. repeat split; try reflexivity. vm_compute. discriminate. Qed.

(** Trimming takes the whitespace of Unicode off: a no-break space in
    front of the text, or a first line that holds nothing else. *)
Example parse_response_unicode_space :
  parse_response (" Title: Foo" +:+ nl +:+ "Bar") = ("Foo"%string, "Bar"%string)
  /\ parse_response (" " +:+ nl +:+ "Bar")
     = ("Untitled Story"%string, " " +:+ nl +:+ "Bar")
  /\ parse_response (" Foo" +:+ nl +:+ " ")
     = ("Untitled Story"%string, " Foo" +:+ nl +:+ " ").
Proof. vm_compute. repeat split; reflexivity. Qed.

(** ** One attempt and the retry loop *)

Section Attempts.

Variable c : chain.
Variable request : StoryGenerationRequest.

Ltac run_attempt H :=
  unfold generate_with_ai_attempt, try_except, bind, emit, ainvoke, ret, raise;
  cbn [invocations log sleeps]; rewrite H.

Lemma attempt_returns (w : world) (text : string) :
  (forall i, c (invocations w) i = Returns text) ->
  exists w',
    generate_with_ai_attempt c request w = (Ok (response_of request text), w')
    /\ invocations w' = S (invocations w) /\ sleeps w' = sleeps w.
Proof.
  intros H. run_attempt H. unfold response_of.
  destruct (parse_response text) as [t b]. cbn.
  eexists. split; [reflexivity|]. split; reflexivity.
Qed.

Lemma attempt_raises_retryable (w : world) (e : py_exception) :
  (forall i, c (invocations w) i = Raises e) -> is_retryable e = true ->
  exists w',
    generate_with_ai_attempt c request w = (Exc e, w')
    /\ invocations w' = S (invocations w) /\ sleeps w' = sleeps w.
Proof.
  intros H He. run_attempt H. rewrite He. cbn.
  eexists. split; [reflexivity|]. split; reflexivity.
Qed.

Lemma attempt_raises_other (w : world) (e : py_exception) :
  (forall i, c (invocations w) i = Raises e) -> is_retryable e = false ->
  exists w',
    generate_with_ai_attempt c request w
    = (Exc (StoryGenerationError ("Failed to generate story: " +:+ exc_str e)
              (Some (type_name e))), w')
    /\ invocations w' = S (invocations w) /\ sleeps w' = sleeps w
    /\ log w' = log w
         ++ [ {| level := DEBUG; event := "invoking_ai_chain";
                 fields := [("keywords", JStr (Py.join ", " (keywords request)))] |};
              {| level := ERROR; event := "story_generation_failed";
                 fields := [("error", JStr (exc_str e));
                            ("error_type", JStr (type_name e))] |} ].
Proof.
  intros H He. run_attempt H. rewrite He. cbn.
  eexists. split; [reflexivity|]. cbn. repeat split.
  rewrite <- app_assoc. reflexivity.
Qed.

(** Whatever one attempt does, it invokes the chain once; what it raises is
    a retryable exception of the chain or the domain error built from a
    non-retryable one. *)
Lemma attempt_cases (w : world) :
  exists w', invocations w' = S (invocations w) /\
    ((exists text, generate_with_ai_attempt c request w = (Ok (response_of request text), w'))
     \/ (exists e, is_retryable e = true
                   /\ generate_with_ai_attempt c request w = (Exc e, w'))
     \/ (exists e, is_retryable e = false
                   /\ generate_with_ai_attempt c request w
                      = (Exc (StoryGenerationError
                                ("Failed to generate story: " +:+ exc_str e)
                                (Some (type_name e))), w')
                   /\ In {| level := ERROR; event := "story_generation_failed";
                            fields := [("error", JStr (exc_str e));
                                       ("error_type", JStr (type_name e))] |}
                         (log w'))).
Proof.
  unfold generate_with_ai_attempt, try_except, bind, emit, ainvoke, ret, raise.
  cbn [invocations log sleeps].
  match goal with |- context [c (invocations w) ?i] =>
    destruct (c (invocations w) i) as [text|e] eqn:E end.
  - destruct (parse_response text) as [t b] eqn:P. cbn.
    eexists. split; [|left; exists text; unfold response_of; rewrite P; reflexivity].
    reflexivity.
  - destruct (is_retryable e) eqn:He; cbn.
    + eexists. split; [|right; left; exists e; split; [exact He|reflexivity]].
      reflexivity.
    + eexists. split; [|right; right; exists e; split; [exact He|split; [reflexivity|]]].
      * reflexivity.
      * cbn. apply in_or_app. right. left. reflexivity.
Qed.

End Attempts.

Section Retry.

Variable c : chain.
Variable request : StoryGenerationRequest.

Let attempt := generate_with_ai_attempt c request.

Lemma retrying_unfold {A} (left n : nat) (body : M A) (w : world) :
  retrying left n body w
  = match body w with
    | (Ok a, w') => (Ok a, w')
    | (Exc e, w') =>
        if is_retryable e then
          match left with
          | O => (Exc (RetryError e), w')
          | S left' =>
              (emit WARNING "retrying_ai_request"
                 [("attempt", JInt (Z.of_nat n));
                  ("wait_seconds", JInt (wait_exponential 1 4 10 n))] ;;
               sleep (wait_exponential 1 4 10 n) ;;
               retrying left' (S n) body) w'
          end
        else (Exc e, w')
    end.
Proof. destruct left; reflexivity. Qed.

Lemma retrying_outcome (left n : nat) (w : world) :
  let '(r, w') := retrying left n attempt w in
  retry_outcome request r w'
  /\ (invocations w < invocations w' <= invocations w + S left)%nat.
Proof.
  revert n w. induction left as [|left IH]; intros n w;
    rewrite retrying_unfold;
    destruct (attempt_cases c request w) as (w1 & Hinv & [(text & E)|[(e & He & E)|(e & He & E & Hlog)]]);
    fold attempt in E; rewrite E; try rewrite He; cbn.
  - split; [eauto|lia].
  - split; [right; eauto|lia].
  - split; [left; eauto|lia].
  - split; [eauto|lia].
  - unfold bind, emit, sleep. cbn.
    match goal with |- context [retrying left (S n) attempt ?w2] =>
      specialize (IH (S n) w2); destruct (retrying left (S n) attempt w2) as [r w'] end.
    cbn in IH. destruct IH as [Ho Hi]. split; [exact Ho|lia].
  - split; [left; eauto|lia].
Qed.

End Retry.

(** ** Retry policy *)

Ltac run_service :=
  unfold post_generate, Router.generate_story, generate_story, ai_service,
    _generate_with_ai, retry_stop_after_attempt, generate_with_ai_attempt,
    try_except, bind, emit, sleep, ainvoke, ret, raise, world0;
  cbn.

Ltac chain_raises H He := rewrite H; cbn; repeat (rewrite He; cbn).

(** C1. Two retryable failures and then an answer: three invocations, two
    backoff sleeps of 4 seconds, and the parsed answer is returned. Three
    retryable failures: three invocations and no fourth, but what leaves
    [generate_story] is tenacity's [RetryError], which the route turns into
    a plain 500 response and not into the 503 of a [StoryGenerationError]. *)
Theorem retry_policy_three_invocations
    (path : string) (c : chain) (request : StoryGenerationRequest)
    (e1 e2 : py_exception) :
  (forall i, c 0%nat i = Raises e1) -> is_retryable e1 = true ->
  (forall i, c 1%nat i = Raises e2) -> is_retryable e2 = true ->
  (forall text, (forall i, c 2%nat i = Returns text) ->
     exists w,
       generate_story (ai_service c) request world0
       = (Ok (response_of request text), w)
       /\ invocations w = 3%nat /\ sleeps w = [4; 4])
  /\ (forall e3, (forall i, c 2%nat i = Raises e3) -> is_retryable e3 = true ->
     (exists w,
        generate_story (ai_service c) request world0 = (Exc (RetryError e3), w)
        /\ invocations w = 3%nat /\ sleeps w = [4; 4])
     /\ exists w',
          post_generate path (ai_service c) request world0
          = ({| status_code := 500;
                body := [("detail", JStr "Internal server error")] |}, w')
          /\ invocations w' = 3%nat).
Proof.
  intros H1 He1 H2 He2. split.
  - intros text H3. run_service.
    chain_raises H1 He1. chain_raises H2 He2. rewrite H3.
    unfold response_of. destruct (parse_response text) as [t b]. cbn.
    eexists. split; [reflexivity|]. split; reflexivity.
  - intros e3 H3 He3. split.
    + run_service.
      chain_raises H1 He1. chain_raises H2 He2. chain_raises H3 He3.
      eexists. split; [reflexivity|]. split; reflexivity.
    + run_service.
      chain_raises H1 He1. chain_raises H2 He2. chain_raises H3 He3.
      eexists. split; reflexivity.
Qed.

Lemma retry_policy_three_invocations_witness :
  (exists w,
     generate_story (ai_service (flaky_chain 2 "One line")) ninja_request world0
     = (Ok (response_of ninja_request "One line"), w)
     /\ invocations w = 3%nat /\ sleeps w = [4; 4]).
Proof.
  apply (retry_policy_three_invocations "/api/v1/generate"
           (flaky_chain 2 "One line") ninja_request
           (RateLimitError "429") (RateLimitError "429")
           (fun _ => eq_refl) eq_refl (fun _ => eq_refl) eq_refl).
  intros i. reflexivity.
Defined.

(** ** The mock backend *)

Lemma random_choice_pair {A} (r : nat) (a b : A) :
  random_choice r [a; b] = Some a \/ random_choice r [a; b] = Some b.
Proof.
  unfold random_choice. cbn [length].
  pose proof (Nat.mod_upper_bound r 2 ltac:(lia)) as Hlt.
  destruct (r `mod` 2)%nat as [|[|n]]; cbn; [left|right|lia]; reflexivity.
Qed.

Lemma fstring_nonempty (p : string) (ps : list string) :
  p <> EmptyString -> Py.fstring (p :: ps) <> EmptyString.
Proof. destruct p; [congruence|]. intros _. cbn. discriminate. Qed.

(** With a first keyword at hand the mock backend returns, touches neither
    the chain nor the clock, and fills the response from its templates. *)
Lemma generate_mock_ok (self : StoryGeneratorService)
    (request : StoryGenerationRequest) (keyword0 : string) (ks : list string)
    (w : world) :
  keywords request = keyword0 :: ks ->
  exists resp w',
    _generate_mock self request w = (Ok resp, w')
    /\ invocations w' = invocations w /\ sleeps w' = sleeps w
    /\ (title resp = "The Tale of the " +:+ Py.capitalize (genre request)
        \/ title resp = "Journey to the " +:+ Py.capitalize keyword0)
    /\ title resp <> EmptyString /\ content resp <> EmptyString
    /\ keywords_used resp = keywords request.
Proof.
  intros Hk. unfold _generate_mock. rewrite Hk.
  unfold bind, emit, ret. cbn [invocations log sleeps].
  match goal with |- context [random_choice ?r [?a; ?b]] =>
    destruct (random_choice_pair r a b) as [E|E]; rewrite E end;
    eexists; eexists; (split; [reflexivity|]); cbn [title content keywords_used invocations sleeps];
    (split; [reflexivity|]); (split; [reflexivity|]);
    (split; [auto|]); (split; [discriminate|]); (split; [|reflexivity]);
    apply fstring_nonempty; discriminate.
Qed.

(** ** What leaves [generate_story] *)

(** C2. Every exception outside the retryable classes that the chain
    raises is turned into a [StoryGenerationError] naming its class; the
    mock backend raises nothing for a request with keywords. But
    [StoryGenerationError] is not the only failure of [generate_story]:
    when the attempts are used up on retryable exceptions, tenacity's
    [RetryError] leaves it unconverted, as the run on the always
    rate-limited chain shows. *)
Theorem generate_story_failure_kinds :
  (forall (self : StoryGeneratorService) (request : StoryGenerationRequest)
          (w w' : world) (e : py_exception),
     keywords request <> [] ->
     generate_story self request w = (Exc e, w') ->
     (exists e0, is_retryable e0 = false
                 /\ e = StoryGenerationError
                          ("Failed to generate story: " +:+ exc_str e0)
                          (Some (type_name e0)))
     \/ (exists last, is_retryable last = true /\ e = RetryError last))
  /\ (exists w',
        generate_story (ai_service (flaky_chain 3 "never")) ninja_request world0
        = (Exc (RetryError (RateLimitError "429")), w')
        /\ invocations w' = 3%nat).
Proof.
  split.
  - intros self request w w' e Hk H. unfold generate_story in H.
    destruct (llm self) as [c|].
    + unfold _generate_with_ai, retry_stop_after_attempt in H. cbn [Nat.pred] in H.
      pose proof (retrying_outcome c request 2 1 w) as Ho.
      rewrite H in Ho. destruct Ho as [Ho _]. cbn in Ho.
      destruct Ho as [(e0 & He0 & -> & _)|(last & Hl & ->)]; eauto.
    + destruct (keywords request) as [|k0 ks] eqn:E; [congruence|].
      unfold bind, emit in H. cbn [invocations log sleeps] in H.
      match type of H with _generate_mock _ _ ?w1 = _ =>
        destruct (generate_mock_ok self request k0 ks w1 E) as (resp & w2 & Hm & _) end.
      rewrite Hm in H. discriminate.
  - eexists. vm_compute. split; reflexivity.
Qed.

(** ** Request validation *)

Section Keywords.

(** The keywords kept by [validate_keywords]: the trimmed forms of the
    entries that are not blank. *)
Lemma elem_of_stripped_nonempty (v : list string) (k : string) :
  k ∈ stripped_nonempty v
  <-> exists k0, k0 ∈ v /\ Py.is_blank k0 = false /\ k = Py.strip k0.
Proof.
  unfold stripped_nonempty. rewrite list_elem_of_fmap. split.
  - intros (k0 & -> & Hin). apply list_elem_of_In, filter_In in Hin as [Hin Hne].
    exists k0. split; [apply list_elem_of_In, Hin|]. split; [|reflexivity].
    apply negb_true_iff, is_empty_false in Hne.
    destruct (Py.is_blank k0) eqn:Hb; [|reflexivity].
    exfalso. apply Hne, strip_empty_iff, Hb.
  - intros (k0 & Hin & Hb & ->). exists k0. split; [reflexivity|].
    apply list_elem_of_In, filter_In. split; [apply list_elem_of_In, Hin|].
    apply negb_true_iff, is_empty_false, strip_nonblank, Hb.
Qed.

Lemma stripped_nonempty_length (v : list string) :
  (length (stripped_nonempty v) <= length v)%nat.
Proof.
  unfold stripped_nonempty. rewrite length_fmap. apply List.filter_length_le.
Qed.

Lemma elements_length_le (l : list string) :
  (length (elements (list_to_set l : gset string)) <= length l)%nat.
Proof.
  apply submseteq_length, NoDup_submseteq; [apply NoDup_elements|].
  intros x Hx. apply elem_of_elements, elem_of_list_to_set in Hx. exact Hx.
Qed.

Lemma validate_keywords_accepted (v ks : list string) :
  validate_keywords v = Accepted ks ->
  ks = elements (list_to_set (stripped_nonempty v) : gset string) /\ ks <> [].
Proof.
  unfold validate_keywords.
  destruct (elements _) as [|k l] eqn:E; [discriminate|].
  intros [= <-]. split; [reflexivity|discriminate].
Qed.

Lemma validate_keywords_nonblank (v : list string) (k : string) :
  k ∈ v -> Py.is_blank k = false ->
  validate_keywords v
  = Accepted (elements (list_to_set (stripped_nonempty v) : gset string)).
Proof.
  intros Hin Hb. unfold validate_keywords.
  destruct (elements _) as [|k1 l] eqn:E; [|reflexivity].
  exfalso.
  assert (Py.strip k ∈ elements (list_to_set (stripped_nonempty v) : gset string)) as H.
  { apply elem_of_elements, elem_of_list_to_set, elem_of_stripped_nonempty. eauto. }
  rewrite E in H. inversion H.
Qed.

Lemma validate_keywords_all_blank (v : list string) :
  (forall k, k ∈ v -> Py.is_blank k = true) ->
  validate_keywords v = Rejected "At least one non-empty keyword is required".
Proof.
  intros Hall. unfold validate_keywords.
  destruct (elements _) as [|k1 l] eqn:E; [reflexivity|].
  exfalso.
  assert (k1 ∈ elements (list_to_set (stripped_nonempty v) : gset string)) as H
    by (rewrite E; left).
  apply elem_of_elements, elem_of_list_to_set, elem_of_stripped_nonempty in H
    as (k0 & Hin & Hb & _).
  rewrite (Hall _ Hin) in Hb. discriminate.
Qed.

Lemma check_size_none (lo hi n : nat) :
  check_size lo hi n = None <-> (lo <= n <= hi)%nat.
Proof.
  unfold check_size.
  destruct (Nat.ltb_spec n lo); [split; [discriminate|lia]|].
  destruct (Nat.ltb_spec hi n); [split; [discriminate|lia]|].
  split; [lia|reflexivity].
Qed.

End Keywords.

(** C4. A keyword list of 1 to 10 entries, one of which has a non-blank
    character, is accepted, and the normalized list is not empty, holds no
    empty string and no duplicate, and holds exactly the trimmed forms of
    the non-blank entries. A list that is empty or all blank is rejected. *)
Theorem keywords_validation (raw : list string) :
  ((1 <= length raw <= 10)%nat ->
   (exists k, k ∈ raw /\ Py.is_blank k = false) ->
   exists ks,
     field_keywords raw = Accepted ks
     /\ ks <> [] /\ (EmptyString ∉ ks) /\ NoDup ks
     /\ forall k, (k ∈ ks)
          <-> (exists k0, k0 ∈ raw /\ Py.is_blank k0 = false /\ k = Py.strip k0))
  /\ ((forall k, k ∈ raw -> Py.is_blank k = true) ->
      exists msg, field_keywords raw = Rejected msg).
Proof.
  split.
  - intros Hlen (k & Hin & Hb). unfold field_keywords.
    apply check_size_none in Hlen. rewrite Hlen.
    rewrite (validate_keywords_nonblank raw k Hin Hb).
    eexists. split; [reflexivity|].
    assert (forall x, x ∈ elements (list_to_set (stripped_nonempty raw) : gset string)
              <-> exists k0, k0 ∈ raw /\ Py.is_blank k0 = false /\ x = Py.strip k0) as Hel.
    { intros x. rewrite elem_of_elements, elem_of_list_to_set.
      apply elem_of_stripped_nonempty. }
    repeat split.
    + intros E. assert (Py.strip k ∈ @nil string) as H
        by (rewrite <- E; apply Hel; eauto).
      inversion H.
    + intros H. apply Hel in H as (k0 & _ & Hb0 & E).
      symmetry in E. apply strip_empty_iff in E. congruence.
    + apply NoDup_elements.
    + apply Hel.
    + apply Hel.
  - intros Hall. unfold field_keywords.
    destruct (check_size 1 10 (length raw)); [eauto|].
    rewrite (validate_keywords_all_blank raw Hall). eauto.
Qed.

Lemma keywords_validation_witness :
  exists ks,
    field_keywords ["ninja"; " toad "; "ninja"; "  "]%string = Accepted ks
    /\ ks <> [] /\ (EmptyString ∉ ks) /\ NoDup ks
    /\ forall k, (k ∈ ks)
         <-> (exists k0, k0 ∈ ["ninja"; " toad "; "ninja"; "  "]%string
                         /\ Py.is_blank k0 = false /\ k = Py.strip k0).
Proof.
  apply (proj1 (keywords_validation ["ninja"; " toad "; "ninja"; "  "]%string)).
  - simpl. lia.
  - exists "ninja"%string. split; [left|reflexivity].
Defined.

(** Whitespace is that of Unicode: a no-break space or an em space is no
    keyword, and is trimmed off one. *)
Example keywords_unicode_space :
  field_keywords [" "; " "]%string
  = Rejected "At least one non-empty keyword is required"
  /\ field_keywords [" ninja "]%string = Accepted ["ninja"%string].
Proof. vm_compute. split; reflexivity. Qed.




Section Lengths.

Lemma check_range_in (lo hi n : Z) :
  lo <= n <= hi -> check_range lo hi (Some n) = None.
Proof.
  intros H. unfold check_range.
  destruct (Z.ltb_spec n lo); [lia|]. destruct (Z.ltb_spec hi n); [lia|reflexivity].
Qed.

Lemma check_range_some (lo hi n : Z) :
  check_range lo hi (Some n) = None -> lo <= n <= hi.
Proof.
  unfold check_range.
  destruct (Z.ltb_spec n lo); [discriminate|].
  destruct (Z.ltb_spec hi n); [discriminate|lia].
Qed.

(** Both lengths given and within their own bounds: what the field
    [min_length] yields. *)
Lemma field_min_length_in_bounds (mn mx : Z) :
  50 <= mn <= 1000 -> 100 <= mx <= 2000 ->
  field_min_length (Some (Some mn))
    (validated_value (field_max_length (Some (Some mx))))
  = if mx <? mn
    then Rejected "min_length cannot be greater than max_length"
    else Accepted (Some mn).
Proof.
  intros Hmn Hmx. unfold field_min_length, field_max_length.
  rewrite (check_range_in _ _ _ Hmn), (check_range_in _ _ _ Hmx).
  cbn [validated_value validate_length_range].
  destruct (Z.eqb_spec mn 0); [lia|]. reflexivity.
Qed.

End Lengths.

(** C6. With both lengths supplied, each within its own bounds:
    [min_length > max_length] is rejected on the field [min_length] and
    the request cannot validate; otherwise the field is accepted, and the
    request validates as soon as its other fields do. *)
Theorem length_range_validation (raw : RawRequest) (mn mx : Z) :
  raw_min_length raw = Some (Some mn) ->
  raw_max_length raw = Some (Some mx) ->
  50 <= mn <= 1000 -> 100 <= mx <= 2000 ->
  (mn > mx ->
     field_min_length (raw_min_length raw)
       (validated_value (field_max_length (raw_max_length raw)))
     = Rejected "min_length cannot be greater than max_length"
     /\ forall r, model_validate raw <> Valid r)
  /\ (mn <= mx ->
     field_min_length (raw_min_length raw)
       (validated_value (field_max_length (raw_max_length raw)))
     = Accepted (Some mn)
     /\ forall k g t,
          field_keywords (raw_keywords raw) = Accepted k ->
          field_genre (raw_genre raw) = Accepted g ->
          field_tone (raw_tone raw) = Accepted t ->
          model_validate raw
          = Valid {| keywords := k; genre := g; tone := t;
                     max_length := Some mx; min_length := Some mn |}).
Proof.
  intros Hmin Hmax Hmn Hmx.
  pose proof (field_min_length_in_bounds mn mx Hmn Hmx) as F.
  rewrite <- Hmin, <- Hmax in F.
  assert (field_max_length (raw_max_length raw) = Accepted (Some mx)) as Fmax.
  { rewrite Hmax. unfold field_max_length. rewrite (check_range_in _ _ _ Hmx).
    reflexivity. }
  split; intros Hcmp.
  - destruct (Z.ltb_spec mx mn); [|lia]. split; [exact F|].
    intros r. unfold model_validate. rewrite F.
    destruct (field_tone (raw_tone raw)), (field_keywords (raw_keywords raw)),
      (field_genre (raw_genre raw)), (field_max_length (raw_max_length raw));
      discriminate.
  - destruct (Z.ltb_spec mx mn); [lia|]. split; [exact F|].
    intros k g t Hk Hg Ht. unfold model_validate.
    rewrite F, Hk, Hg, Ht, Fmax. reflexivity.
Qed.

Lemma length_range_validation_witness :
  field_min_length (Some (Some 1000))
    (validated_value (field_max_length (Some (Some 500))))
  = Rejected "min_length cannot be greater than max_length"
  /\ forall r,
       model_validate
         {| raw_keywords := ["ninja"]%string; raw_genre := "fantasy";
            raw_tone := None; raw_max_length := Some (Some 500);
            raw_min_length := Some (Some 1000) |} <> Valid r.
Proof.
  apply (proj1 (length_range_validation
                  {| raw_keywords := ["ninja"]%string; raw_genre := "fantasy";
                     raw_tone := None; raw_max_length := Some (Some 500);
                     raw_min_length := Some (Some 1000) |}
                  1000 500 eq_refl eq_refl ltac:(lia) ltac:(lia))).
  lia.
Defined.

(** C10. A request whose tone is supplied as null is not answered by a
    validation error: [None.lower()] raises [AttributeError] inside the
    validator and validation stops with that exception, whatever the other
    fields hold. *)
Theorem tone_null_raises (raw : RawRequest) :
  raw_tone raw = Some None ->
  validate_tone None
  = Raised (PyException "AttributeError"
              "'NoneType' object has no attribute 'lower'")
  /\ model_validate raw
     = Crashed (PyException "AttributeError"
                  "'NoneType' object has no attribute 'lower'")
  /\ (forall errors, model_validate raw <> Invalid errors)
  /\ (forall r, model_validate raw <> Valid r).
Proof.
  intros H. split; [reflexivity|].
  assert (model_validate raw
          = Crashed (PyException "AttributeError"
                       "'NoneType' object has no attribute 'lower'")) as E.
  { unfold model_validate. rewrite H. reflexivity. }
  rewrite E. repeat split; intros; discriminate.
Qed.

Lemma tone_null_raises_witness :
  model_validate
    {| raw_keywords := ["ninja"]%string; raw_genre := "fantasy";
       raw_tone := Some None; raw_max_length := None; raw_min_length := None |}
  = Crashed (PyException "AttributeError"
               "'NoneType' object has no attribute 'lower'").
Proof.
  apply (tone_null_raises
           {| raw_keywords := ["ninja"]%string; raw_genre := "fantasy";
              raw_tone := Some None; raw_max_length := None;
              raw_min_length := None |} eq_refl).
Defined.

(** A validated request holds what its fields accepted. *)
Lemma model_validate_valid (raw : RawRequest) (r : StoryGenerationRequest) :
  model_validate raw = Valid r ->
  field_keywords (raw_keywords raw) = Accepted (keywords r)
  /\ field_genre (raw_genre raw) = Accepted (genre r)
  /\ field_tone (raw_tone raw) = Accepted (tone r)
  /\ field_max_length (raw_max_length raw) = Accepted (max_length r)
  /\ field_min_length (raw_min_length raw)
       (validated_value (field_max_length (raw_max_length raw)))
     = Accepted (min_length r).
Proof.
  unfold model_validate.
  destruct (field_tone (raw_tone raw)) eqn:Ft; [| |discriminate];
    destruct (field_max_length (raw_max_length raw)) eqn:Fmax;
    destruct (field_min_length _ _) eqn:Fmin; try discriminate;
    destruct (field_keywords (raw_keywords raw)) eqn:Fk; try discriminate;
    destruct (field_genre (raw_genre raw)) eqn:Fg; try discriminate.
  intros [= <-]. cbn [keywords genre tone max_length min_length].
  repeat split; reflexivity.
Qed.

Lemma validated_keywords (raw : RawRequest) (r : StoryGenerationRequest) :
  model_validate raw = Valid r ->
  keywords r
  = elements (list_to_set (stripped_nonempty (raw_keywords raw)) : gset string)
  /\ keywords r <> [].
Proof.
  intros H. apply model_validate_valid in H as (Hk & _).
  unfold field_keywords in Hk.
  destruct (check_size 1 10 _); [discriminate|].
  apply validate_keywords_accepted, Hk.
Qed.



(** The case mapping is that of Unicode: a sharp s is capitalized to "Ss",
    an accented letter to its capital. *)
Example capitalize_unicode :
  Py.capitalize "ßeta" = "Sseta"%string /\ Py.capitalize "élan" = "Élan"%string
  /\ Py.capitalize "fANTASY" = "Fantasy"%string.
Proof. vm_compute. repeat split; reflexivity. Qed.

(** ** Non-empty fields of a result *)

Lemma strip_keeps_nonblank (s : string) :
  Py.is_blank s = false -> Py.is_blank (Py.strip s) = false.
Proof.
  intros H. unfold Py.is_blank. rewrite lstrip_strip.
  apply is_empty_false, strip_nonblank, H.
Qed.

(** The text behind a response of the retried AI path. *)
Lemma generate_with_ai_ok (c : chain) (request : StoryGenerationRequest)
    (w w' : world) (resp : StoryGenerationResponse) :
  _generate_with_ai c request w = (Ok resp, w') ->
  exists text, resp = response_of request text.
Proof.
  intros H. unfold _generate_with_ai, retry_stop_after_attempt in H.
  cbn [Nat.pred] in H.
  pose proof (retrying_outcome c request 2 1 w) as Ho.
  rewrite H in Ho. destruct Ho as [Ho _]. exact Ho.
Qed.

(** C8, as the code has it. The mock backend only returns results with a
    non-empty title and content. A result parsed from the text of the
    chain has an empty content exactly when that text is empty; its title
    is "Untitled Story" when the trimmed text has no newline; with a
    newline it is not empty when the trimmed first line holds neither
    marker, it is empty when the trimmed first line is made only of
    markers and whitespace, and in general it is empty exactly when
    removing every "Title:" and then every "title:" from the trimmed first
    line leaves only whitespace. *)
Theorem result_fields_nonempty :
  (forall (self : StoryGeneratorService) (request : StoryGenerationRequest)
          (w w' : world) (resp : StoryGenerationResponse),
     _generate_mock self request w = (Ok resp, w') ->
     title resp <> EmptyString /\ content resp <> EmptyString)
  /\ (forall (c : chain) (request : StoryGenerationRequest) (w w' : world)
             (resp : StoryGenerationResponse),
        _generate_with_ai c request w = (Ok resp, w') ->
        exists text,
          resp = response_of request text
          /\ (content resp = EmptyString <-> text = EmptyString)
          /\ (Py.has_newline (Py.strip text) = false ->
              title resp = "Untitled Story"%string)
          /\ (forall a b,
                Py.strip text = a +:+ nl +:+ b ->
                Py.has_newline a = false ->
                Py.occurs "Title:" (Py.strip a) = false ->
                Py.occurs "title:" (Py.strip a) = false ->
                title resp <> EmptyString)
          /\ (forall a b,
                Py.strip text = a +:+ nl +:+ b ->
                Py.has_newline a = false ->
                markers_and_blanks (Py.strip a) ->
                title resp = EmptyString)
          /\ (forall a b,
                Py.strip text = a +:+ nl +:+ b ->
                Py.has_newline a = false ->
                (title resp = EmptyString
                 <-> Py.is_blank (Py.remove_all "title:"
                                    (Py.remove_all "Title:" (Py.strip a)))
                     = true))).
Proof.
  split.
  - intros self request w w' resp H.
    destruct (keywords request) as [|k0 ks] eqn:E.
    + unfold _generate_mock in H. rewrite E in H. discriminate.
    + destruct (generate_mock_ok self request k0 ks w E)
        as (resp' & w2 & Hm & _ & _ & _ & Ht & Hc & _).
      rewrite Hm in H. injection H as <- _. split; assumption.
  - intros c request w w' resp H.
    destruct (generate_with_ai_ok c request w w' resp H) as [text ->].
    exists text. split; [reflexivity|]. cbn [response_of title content].
    split; [apply parse_response_content_empty|]. split; [|split; [|split]].
    + intros Hn. rewrite (parse_response_one_line _ Hn). reflexivity.
    + intros a b Hab Ha HT Ht.
      rewrite (parse_response_two_parts _ _ _ Hab Ha). cbn [fst].
      rewrite (remove_all_absent _ _ HT), (remove_all_absent _ _ Ht).
      destruct (strip_cut_parts _ _ _ Hab) as [Hba _].
      apply strip_nonblank, strip_keeps_nonblank, Hba.
    + intros a b Hab Ha Hm.
      rewrite (parse_response_two_parts _ _ _ Hab Ha). cbn [fst].
      apply strip_empty_iff, markers_removed_blank, Hm.
    + intros a b Hab Ha.
      rewrite (parse_response_two_parts _ _ _ Hab Ha). cbn [fst].
      apply strip_empty_iff.
Qed.

Lemma result_fields_nonempty_witness :
  exists resp w',
    _generate_mock (mock_service 1) ninja_request world0 = (Ok resp, w')
    /\ title resp <> EmptyString /\ content resp <> EmptyString.
Proof.
  eexists. eexists. split; [vm_compute; reflexivity|].
  eapply (proj1 result_fields_nonempty (mock_service 1) ninja_request world0).
  vm_compute. reflexivity.
Defined.

(** C8 as stated fails on the AI path: a first line made of the marker
    alone gives an empty title, and an empty text an empty content. *)
Lemma ai_result_empty_fields :
  fst (generate_story (ai_service (fun _ _ => Returns ("Title:" +:+ nl +:+ "Bar")))
         ninja_request world0)
  = Ok {| title := ""; content := "Bar"; keywords_used := ["ninja"; "toad"]%string |}
  /\ fst (generate_story (ai_service (fun _ _ => Returns "")) ninja_request world0)
     = Ok {| title := "Untitled Story"; content := "";
             keywords_used := ["ninja"; "toad"]%string |}.
Proof. split; vm_compute; reflexivity. Qed.

(** A first line of markers and whitespace, behind a no-break space and a
    newline that the trimming of the text removes. *)
Example markers_only_title :
  markers_and_blanks "Title: title:"
  /\ parse_response (" " +:+ nl +:+ "Title: title: " +:+ nl +:+ "Bar")
     = (EmptyString, "Bar"%string).
Proof.
  split; [|vm_compute; reflexivity].
  apply mb_Title, (mb_blank " "); [reflexivity|]. apply mb_title, mb_empty.
Qed.

(** ** How a generation failure is surfaced *)

(** Where a [StoryGenerationError] that leaves [generate_story] comes
    from: line 88, for an exception of the chain outside the retryable
    classes. *)
Lemma story_generation_error_origin (service : StoryGeneratorService)
    (request : StoryGenerationRequest) (w w' : world)
    (msg : string) (detail : option string) :
  generate_story service request w = (Exc (StoryGenerationError msg detail), w') ->
  exists e0,
    is_retryable e0 = false
    /\ msg = "Failed to generate story: " +:+ exc_str e0
    /\ detail = Some (type_name e0)
    /\ In {| level := ERROR; event := "story_generation_failed";
             fields := [("error", JStr (exc_str e0));
                        ("error_type", JStr (type_name e0))] |} (log w').
Proof.
  unfold generate_story. destruct (llm service) as [c|].
  - intros H. unfold _generate_with_ai, retry_stop_after_attempt in H.
    cbn [Nat.pred] in H.
    pose proof (retrying_outcome c request 2 1 w) as Ho.
    rewrite H in Ho. destruct Ho as [Ho _]. cbn in Ho.
    destruct Ho as [(e0 & He0 & [= -> ->] & Hlog)|(last & _ & [=])].
    exists e0. auto.
  - unfold bind, emit, _generate_mock, ret, raise. cbn [invocations log sleeps].
    destruct (keywords request); [discriminate|].
    destruct (random_choice _ _); discriminate.
Qed.

(** C9, as the code has it. A [StoryGenerationError] that leaves the route
    was built from a non-retryable exception of the chain: its message is
    "Failed to generate story: " followed by the text of that exception,
    its detail attribute the class name of that exception, already logged
    at error level with that class name. It is answered with status 503
    and the fixed title "Story Generation Failed"; the detail field of the
    body is the message of the error in full, and the class name goes to
    the log entry of the handler, not to the body. *)
Theorem story_generation_error_surface (path : string)
    (service : StoryGeneratorService) (request : StoryGenerationRequest)
    (w w1 : world) (msg : string) (detail : option string) :
  Router.generate_story service request w
  = (Exc (StoryGenerationError msg detail), w1) ->
  (exists e0,
     is_retryable e0 = false
     /\ msg = "Failed to generate story: " +:+ exc_str e0
     /\ detail = Some (type_name e0)
     /\ In {| level := ERROR; event := "story_generation_failed";
              fields := [("error", JStr (exc_str e0));
                         ("error_type", JStr (type_name e0))] |} (log w1))
  /\ exists resp w2,
       post_generate path service request w = (resp, w2)
       /\ status_code resp = 503
       /\ body resp = [("type", JStr "driver:error");
                       ("title", JStr "Story Generation Failed");
                       ("status", JInt 503);
                       ("detail", JStr msg);
                       ("instance", JStr path)]
       /\ log w2 = log w1
            ++ [{| level := ERROR; event := "story_generation_error";
                   fields := [("error", JStr msg);
                              ("detail", json_of_opt_str detail)] |}]
       /\ invocations w2 = invocations w1.
Proof.
  intros H. split.
  - unfold Router.generate_story, try_except, bind, emit in H.
    cbn [invocations log sleeps] in H.
    match type of H with context [generate_story service request ?w0] =>
      destruct (generate_story service request w0) as [[story|e] w3] eqn:G end.
    + discriminate.
    + destruct (is_JiraiyaException e) eqn:J.
      * unfold raise in H. injection H as -> ->.
        exact (story_generation_error_origin _ _ _ _ _ _ G).
      * unfold raise in H. discriminate.
  - unfold post_generate. rewrite H.
    unfold Errors.story_generation_exception_handler, emit. cbn.
    eexists. eexists. repeat split.
Qed.

Lemma story_generation_error_surface_witness :
  exists resp w2,
    post_generate "/api/v1/generate"
      (ai_service (fun _ _ => Raises (PyException "ValueError" "boom")))
      ninja_request world0 = (resp, w2)
    /\ status_code resp = 503
    /\ body_get "detail" (body resp)
       = Some (JStr "Failed to generate story: boom").
Proof.
  destruct (story_generation_error_surface "/api/v1/generate"
              (ai_service (fun _ _ => Raises (PyException "ValueError" "boom")))
              ninja_request world0
              (snd (Router.generate_story
                      (ai_service (fun _ _ => Raises (PyException "ValueError" "boom")))
                      ninja_request world0))
              "Failed to generate story: boom" (Some "ValueError"%string))
    as [_ (resp & w2 & Hp & Hs & Hb & _)].
  - vm_compute. reflexivity.
  - exists resp, w2. split; [exact Hp|]. split; [exact Hs|].
    rewrite Hb. reflexivity.
Defined.

(** C9 as stated fails: the body of the 503 response repeats the text of
    the original exception and nowhere holds its class name. *)
Lemma story_generation_error_not_redacted :
  let c : chain :=
    fun _ _ => Raises (PyException "ConnectionError"
                         "key sk-live-1234 refused by 10.0.0.5") in
  let resp := fst (post_generate "/api/v1/generate" (ai_service c)
                     ninja_request world0) in
  status_code resp = 503
  /\ body_get "detail" (body resp)
     = Some (JStr "Failed to generate story: key sk-live-1234 refused by 10.0.0.5")
  /\ ~ In (JStr "ConnectionError") (map snd (body resp)).
Proof.
  vm_compute. split; [reflexivity|]. split; [reflexivity|].
  intros H. repeat (destruct H as [H|H]; [discriminate|]). exact H.
Qed.

(** * Further properties of the code *)

(** ** The retry loop, for every behaviour of the chain *)

Section RetryAccounting.

Variable c : chain.
Variable request : StoryGenerationRequest.

Lemma attempt_step (w : world) :
  exists w1,
    generate_with_ai_attempt c request w
    = (attempt_result request (c (invocations w) (inputs_of request)), w1)
    /\ invocations w1 = S (invocations w) /\ sleeps w1 = sleeps w.
Proof.
  unfold generate_with_ai_attempt, try_except, bind, emit, ainvoke, ret, raise.
  cbn [invocations log sleeps]. fold (inputs_of request).
  destruct (c (invocations w) (inputs_of request)) as [text|e]; cbn [attempt_result].
  - unfold response_of. destruct (parse_response text) as [t b]. cbn.
    eexists. split; [reflexivity|]. split; reflexivity.
  - destruct (is_retryable e); cbn; eexists; (split; [reflexivity|]);
      split; reflexivity.
Qed.

Lemma retrying_accounting (left k : nat) (w : world) :
  exists (m : nat) (w' : world),
    (m <= left)%nat
    /\ retrying left k (generate_with_ai_attempt c request) w
       = (final_result request (c (invocations w + m)%nat (inputs_of request)), w')
    /\ invocations w' = (invocations w + S m)%nat
    /\ sleeps w' = sleeps w ++ (wait_exponential 1 4 10 <$> seq k m)
    /\ (forall i, (i < m)%nat ->
          exists e, c (invocations w + i)%nat (inputs_of request) = Raises e
                    /\ is_retryable e = true)
    /\ (forall e, c (invocations w + m)%nat (inputs_of request) = Raises e ->
          is_retryable e = true -> m = left).
Proof.
  revert k w. induction left as [|left IH]; intros k w;
    rewrite retrying_unfold;
    destruct (attempt_step w) as (w1 & E & Hi & Hs); rewrite E;
    destruct (c (invocations w) (inputs_of request)) as [text|e] eqn:Ec;
    cbn [attempt_result].
  - exists 0%nat, w1. rewrite Nat.add_0_r, Ec. cbn. rewrite app_nil_r.
    repeat split; try lia; try assumption; try (intros ? ?; discriminate).
  - exists 0%nat, w1. rewrite Nat.add_0_r, Ec. cbn [final_result attempt_result].
    destruct (is_retryable e) eqn:He; cbn; rewrite ?He, ?app_nil_r;
      repeat split; try lia; try assumption;
      try (intros e' [= <-] He'; congruence).
  - exists 0%nat, w1. rewrite Nat.add_0_r, Ec. cbn. rewrite app_nil_r.
    repeat split; try lia; try assumption; try (intros ? ?; discriminate).
  - destruct (is_retryable e) eqn:He; cbn; rewrite ?He.
    + unfold bind, emit, sleep. cbn [invocations log sleeps]. rewrite Hi, Hs.
      match goal with |- context [retrying left (S k) _ ?w2] =>
        destruct (IH (S k) w2) as (m & w' & Hm & R & Hi' & Hs' & Hall & Hlast) end.
      cbn [invocations sleeps] in R, Hi', Hs', Hall, Hlast.
      exists (S m), w'.
      replace (invocations w + S m)%nat with (S (invocations w) + m)%nat by lia.
      split; [lia|]. split; [exact R|]. split; [lia|]. split.
      { rewrite Hs', <- app_assoc. reflexivity. }
      split.
      { intros [|i] Hlt.
        - exists e. rewrite Nat.add_0_r. auto.
        - replace (invocations w + S i)%nat with (S (invocations w) + i)%nat by lia.
          apply Hall. lia. }
      intros e' He' Hr. f_equal. exact (Hlast e' He' Hr).
    + exists 0%nat, w1. rewrite Nat.add_0_r, Ec. cbn. rewrite He, app_nil_r.
      repeat split; try lia; try assumption;
        try (intros e' [= <-] He'; congruence).
Qed.

End RetryAccounting.

Lemma wait_exponential_bounds (attempt_number : nat) :
  4 <= wait_exponential 1 4 10 attempt_number <= 10.
Proof. unfold wait_exponential. lia. Qed.

(** X1. Whatever the chain does, [_generate_with_ai] invokes it one to
    three times, once more than it retries; it retries only after a
    retryable exception and sleeps 4 seconds before each retry; what it
    yields is read off the last invocation: the parsed answer, the domain
    error built from a non-retryable exception (which is never retried),
    or [RetryError] for a retryable exception at the third invocation. *)
Theorem generate_with_ai_accounting (c : chain) (request : StoryGenerationRequest)
    (w : world) :
  exists (retries : nat) (w' : world),
    (retries <= 2)%nat
    /\ _generate_with_ai c request w
       = (final_result request (c (invocations w + retries)%nat (inputs_of request)), w')
    /\ invocations w' = (invocations w + S retries)%nat
    /\ sleeps w' = sleeps w ++ replicate retries 4
    /\ (forall i, (i < retries)%nat ->
          exists e, c (invocations w + i)%nat (inputs_of request) = Raises e
                    /\ is_retryable e = true)
    /\ (forall e, c (invocations w + retries)%nat (inputs_of request) = Raises e ->
          is_retryable e = true -> retries = 2%nat).
Proof.
  destruct (retrying_accounting c request 2 1 w)
    as (m & w' & Hm & R & Hi & Hs & Hall & Hlast).
  exists m, w'. repeat split; try assumption.
  rewrite Hs. f_equal.
  destruct m as [|[|[|m]]]; [reflexivity|reflexivity|reflexivity|lia].
Qed.

(** ** What leaves the route *)

Lemma generate_story_raises (service : StoryGeneratorService)
    (request : StoryGenerationRequest) (w w' : world) (e : py_exception) :
  generate_story service request w = (Exc e, w') ->
  is_JiraiyaException e = true ->
  exists msg detail, e = StoryGenerationError msg detail.
Proof.
  unfold generate_story. destruct (llm service) as [c|].
  - intros H. unfold _generate_with_ai, retry_stop_after_attempt in H.
    cbn [Nat.pred] in H.
    pose proof (retrying_outcome c request 2 1 w) as Ho.
    rewrite H in Ho. destruct Ho as [Ho _]. cbn in Ho.
    destruct Ho as [(e0 & _ & -> & _)|(last & _ & ->)]; [eauto|discriminate].
  - unfold bind, emit, _generate_mock, ret, raise. cbn [invocations log sleeps].
    destruct (keywords request); [intros [= <- _]; discriminate|].
    destruct (random_choice _ _); [discriminate|intros [= <- _]; discriminate].
Qed.

(** X2. The route lets out a story, a [StoryGenerationError] unchanged, or
    [HTTPException(500, "Internal server error")], and nothing else: the
    answer to a validated request is 200 with the story, 503 with the
    message of the error as detail, or a 500 whose body is that fixed
    text. In the last case the exception that left [generate_story] is no
    [JiraiyaException], and the last entry of the log records it at error
    level: its class name, and its text (for tenacity's [RetryError] the
    class name and the [repr] of the last attempt, whose address is a
    run-time value); neither reaches the body. *)
Theorem post_generate_outcomes (path : string) (service : StoryGeneratorService)
    (request : StoryGenerationRequest) (w : world) :
  exists (resp : JSONResponse) (w' : world),
    post_generate path service request w = (resp, w')
    /\ ((exists story,
           Router.generate_story service request w = (Ok story, w')
           /\ status_code resp = 200
           /\ body resp = [("title", JStr (title story));
                           ("content", JStr (content story));
                           ("keywords_used", JList (keywords_used story))])
        \/ (exists msg detail w1,
              Router.generate_story service request w
              = (Exc (StoryGenerationError msg detail), w1)
              /\ status_code resp = 503
              /\ body_get "detail" (body resp) = Some (JStr msg))
        \/ (exists e w0 w1 text,
              emit INFO "story_generation_requested"
                [("keywords", JList (keywords request));
                 ("genre", JStr (genre request));
                 ("tone", json_of_opt_str (tone request))] w
              = (Ok tt, w0)
              /\ generate_story service request w0 = (Exc e, w1)
              /\ is_JiraiyaException e = false
              /\ Router.generate_story service request w
                 = (Exc (HTTPException 500 "Internal server error"), w')
              /\ status_code resp = 500
              /\ body resp = [("detail", JStr "Internal server error")]
              /\ invocations w' = invocations w1 /\ sleeps w' = sleeps w1
              /\ log w'
                 = log w1 ++ [{| level := ERROR; event := "story_generation_failed";
                                 fields := [("error", JStr text);
                                            ("error_type", JStr (type_name e))] |}]
              /\ match e with
                 | RetryError last =>
                     exists address,
                       text = "RetryError[<Future at " +:+ address
                              +:+ " state=finished raised " +:+ type_name last
                              +:+ ">]"
                 | _ => text = exc_str e
                 end)).
Proof.
  unfold post_generate, Router.generate_story, try_except, bind, emit, ret, raise.
  cbn [invocations log sleeps].
  match goal with |- context [generate_story service request ?w0] =>
    destruct (generate_story service request w0) as [[story|e] w1] eqn:G end.
  - eexists. eexists. split; [reflexivity|]. left. exists story. cbn. auto.
  - destruct (is_JiraiyaException e) eqn:J.
    + destruct (generate_story_raises _ _ _ _ _ G J) as (msg & detail & ->).
      unfold Errors.story_generation_exception_handler, emit. cbn.
      eexists. eexists. split; [reflexivity|]. right. left.
      exists msg, detail, w1. cbn. auto.
    + cbn. eexists. eexists. split; [reflexivity|]. right. right.
      exists e. eexists. exists w1, (exc_str e).
      split; [reflexivity|]. split; [exact G|]. split; [exact J|].
      split; [reflexivity|]. split; [reflexivity|]. split; [reflexivity|].
      cbn. split; [reflexivity|]. split; [reflexivity|]. split; [reflexivity|].
      destruct e; try reflexivity. exists future_address. reflexivity.
Qed.

(** The 500 of a request on a chain that is rate-limited three times: what
    the log records is the [RetryError], not the exception of the chain. *)
Example post_generate_retry_error_logged :
  exists resp w',
    post_generate "/api/v1/generate"
      (ai_service (fun _ _ => Raises (RateLimitError "429"))) ninja_request world0
    = (resp, w')
    /\ status_code resp = 500
    /\ body resp = [("detail", JStr "Internal server error")]
    /\ last (log w')
       = Some {| level := ERROR; event := "story_generation_failed";
                 fields := [("error", JStr (exc_str (RetryError (RateLimitError "429"))));
                            ("error_type", JStr "RetryError")] |}.
Proof. eexists. eexists. vm_compute. repeat split; reflexivity. Qed.

(** X3. With a chain configured, the status of the answer to a validated
    request is decided by the last of the one to three invocations: 200
    when it returns, 503 when it raises outside the retryable classes, and
    500 when it is the third in a row to raise a retryable exception. *)
Theorem post_generate_ai_status (path : string) (c : chain) (r : nat)
    (request : StoryGenerationRequest) (w : world) :
  exists (retries : nat) (resp : JSONResponse) (w' : world),
    (retries <= 2)%nat
    /\ post_generate path {| llm := Some c; rnd := r |} request w = (resp, w')
    /\ invocations w' = (invocations w + S retries)%nat
    /\ sleeps w' = sleeps w ++ replicate retries 4
    /\ status_code resp
       = match c (invocations w + retries)%nat (inputs_of request) with
         | Returns _ => 200
         | Raises e => if is_retryable e then 500 else 503
         end.
Proof.
  unfold post_generate, Router.generate_story, try_except, bind, emit, ret, raise,
    generate_story, _generate_with_ai, retry_stop_after_attempt.
  cbn [invocations log sleeps llm Nat.pred].
  match goal with |- context [retrying 2 1 _ ?w0] =>
    destruct (retrying_accounting c request 2 1 w0)
      as (m & w1 & Hm & R & Hi & Hs & _ & _) end.
  cbn [invocations sleeps] in R, Hi, Hs. rewrite R.
  assert (wait_exponential 1 4 10 <$> seq 1 m = replicate m 4) as Hw.
  { destruct m as [|[|[|m]]]; [reflexivity|reflexivity|reflexivity|lia]. }
  rewrite Hw in Hs.
  exists m.
  destruct (c (invocations w + m)%nat (inputs_of request)) as [text|e];
    cbn [final_result attempt_result].
  - eexists. eexists. split; [exact Hm|]. split; [reflexivity|].
    cbn. auto.
  - destruct (is_retryable e) eqn:He; cbn [is_JiraiyaException].
    + eexists. eexists. split; [exact Hm|]. split; [reflexivity|]. cbn. auto.
    + unfold Errors.story_generation_exception_handler, emit.
      eexists. eexists. split; [exact Hm|]. split; [reflexivity|]. cbn. auto.
Qed.

(** ** Authentication and validation in front of the route *)

(** X4. With an API key configured, a request whose [X-API-Key] header is
    missing or differs from it is answered 401 "Could not validate
    credentials" whatever its payload, and leaves nothing behind: no log
    entry, no invocation of the chain. *)
Theorem generate_endpoint_unauthorized (settings : Settings)
    (service : StoryGeneratorService) (path : string) (api_key : option string)
    (raw : RawRequest) (w : world) (k : string) :
  API_KEY settings = Some k -> k <> EmptyString -> api_key <> Some k ->
  generate_endpoint settings service path api_key raw w
  = (Responds {| status_code := 401;
                 body := [("detail", JStr "Could not validate credentials")] |}, w).
Proof.
  intros Hk Hne Hneq. unfold generate_endpoint, verify_api_key.
  rewrite Hk. cbn [truthy]. apply is_empty_false in Hne. rewrite Hne.
  rewrite bool_decide_eq_false_2 by exact Hneq. reflexivity.
Qed.

Lemma generate_endpoint_unauthorized_witness :
  generate_endpoint
    {| VERSION := "0.1.0"; ENVIRONMENT := "development";
       OPENAI_API_KEY := None; API_KEY := Some "test-secret"%string |}
    (mock_service 0) "/api/v1/generate" (Some "wrong-secret"%string) ninja_raw world0
  = (Responds {| status_code := 401;
                 body := [("detail", JStr "Could not validate credentials")] |},
     world0).
Proof.
  apply (generate_endpoint_unauthorized _ _ _ _ _ _ "test-secret"%string);
    [reflexivity|discriminate|discriminate].
Defined.

(** X5. The header is compared only when a key is configured: without one
    every request is let through, and the answer does not depend on the
    header it carries. *)
Theorem generate_endpoint_open (settings : Settings)
    (service : StoryGeneratorService) (path : string) (api_key : option string)
    (raw : RawRequest) (w : world) :
  truthy (API_KEY settings) = false ->
  verify_api_key settings api_key = Ok api_key
  /\ generate_endpoint settings service path api_key raw w
     = generate_endpoint settings service path None raw w.
Proof.
  intros H. unfold generate_endpoint, verify_api_key. rewrite H. cbn.
  split; reflexivity.
Qed.

Lemma generate_endpoint_open_witness :
  let settings := {| VERSION := "0.1.0"; ENVIRONMENT := "development";
                     OPENAI_API_KEY := None; API_KEY := None |} in
  verify_api_key settings (Some "anything"%string) = Ok (Some "anything"%string)
  /\ generate_endpoint settings (mock_service 0) "/api/v1/generate"
       (Some "anything"%string) ninja_raw world0
     = generate_endpoint settings (mock_service 0) "/api/v1/generate"
         None ninja_raw world0.
Proof.
  apply (generate_endpoint_open
           {| VERSION := "0.1.0"; ENVIRONMENT := "development";
              OPENAI_API_KEY := None; API_KEY := None |}).
  reflexivity.
Defined.

Lemma generate_story_invocations (service : StoryGeneratorService)
    (request : StoryGenerationRequest) (w : world) :
  exists r w',
    generate_story service request w = (r, w')
    /\ (invocations w <= invocations w' <= invocations w + 3)%nat
    /\ (invocations w' <> invocations w -> exists c, llm service = Some c).
Proof.
  unfold generate_story. destruct (llm service) as [c|].
  - unfold _generate_with_ai, retry_stop_after_attempt. cbn [Nat.pred].
    destruct (retrying_accounting c request 2 1 w)
      as (m & w' & Hm & R & Hi & _).
    eexists. exists w'. split; [exact R|]. split; [lia|]. eauto.
  - unfold bind, emit, _generate_mock, ret, raise. cbn [invocations log sleeps].
    destruct (keywords request);
      [eexists; eexists; split; [reflexivity|]; cbn; split; [lia|congruence]|].
    destruct (random_choice _ _);
      eexists; eexists; (split; [reflexivity|]); cbn; (split; [lia|congruence]).
Qed.

Lemma post_generate_invocations (path : string) (service : StoryGeneratorService)
    (request : StoryGenerationRequest) (w : world) :
  exists resp w',
    post_generate path service request w = (resp, w')
    /\ (invocations w <= invocations w' <= invocations w + 3)%nat
    /\ (invocations w' <> invocations w -> exists c, llm service = Some c).
Proof.
  unfold post_generate, Router.generate_story, try_except, bind, emit, ret, raise.
  cbn [invocations log sleeps].
  match goal with |- context [generate_story service request ?w0] =>
    destruct (generate_story_invocations service request w0)
      as (r & w1 & G & Hb & Hc) end.
  cbn [invocations] in Hb, Hc. rewrite G.
  destruct r as [story|e].
  - eexists. eexists. split; [reflexivity|]. cbn. auto.
  - destruct e; cbn [is_JiraiyaException];
      unfold Errors.story_generation_exception_handler,
        Errors.jiraiya_exception_handler, emit;
      eexists; eexists; (split; [reflexivity|]); cbn; auto.
Qed.

(** X6. One POST on [/generate] invokes the chain at most three times, and
    not at all unless the key was accepted, the payload validated and a
    chain is configured. *)
Theorem generate_endpoint_invocations (settings : Settings)
    (service : StoryGeneratorService) (path : string) (api_key : option string)
    (raw : RawRequest) (w : world) :
  exists out w',
    generate_endpoint settings service path api_key raw w = (out, w')
    /\ (invocations w <= invocations w' <= invocations w + 3)%nat
    /\ (invocations w' <> invocations w ->
          verify_api_key settings api_key = Ok api_key
          /\ (exists request, model_validate raw = Valid request)
          /\ (exists c, llm service = Some c)).
Proof.
  unfold generate_endpoint.
  assert (forall o : endpoint_outcome, (o, w) = (o, w)
            /\ (invocations w <= invocations w <= invocations w + 3)%nat
            /\ (invocations w <> invocations w ->
                verify_api_key settings api_key = Ok api_key
                /\ (exists request, model_validate raw = Valid request)
                /\ (exists c, llm service = Some c))) as Hsame
    by (intros o; split; [reflexivity|]; split; [lia|congruence]).
  destruct (verify_api_key settings api_key) as [k|e] eqn:V.
  - assert (k = api_key) as ->.
    { unfold verify_api_key in V. destruct (_ && _); congruence. }
    destruct (model_validate raw) as [request|errors|e] eqn:Mv.
    + destruct (post_generate_invocations path service request w)
        as (resp & w' & P & Hb & Hc).
      rewrite P. eexists. eexists. split; [reflexivity|]. split; [exact Hb|].
      intros Hne. split; [reflexivity|]. split; [eauto|]. exact (Hc Hne).
    + eexists. eexists. apply (Hsame (RequestValidationError errors)).
    + eexists. eexists. apply (Hsame (Propagates e)).
  - destruct e; eexists; eexists; apply Hsame.
Qed.

(** ** Settings *)

(** X7. A production configuration that [validate_settings] lets start has
    an OpenAI key and an API key of 16 characters or more; so the service
    built from it uses the chain, never the mock backend, and
    [verify_api_key] lets through exactly the requests that carry that
    key. *)
Theorem production_settings_enforced (settings : Settings) (c : chain) (r : nat) :
  is_production settings = true ->
  validate_settings settings = Ok tt ->
  llm (StoryGeneratorService_init settings c r) = Some c
  /\ exists k,
       API_KEY settings = Some k /\ (16 <= String.length k)%nat
       /\ (16 <= Py.len k)%nat
       /\ forall api_key,
            verify_api_key settings api_key = Ok api_key <-> api_key = Some k.
Proof.
  intros Hp Hv. unfold validate_settings in Hv. rewrite Hp in Hv.
  destruct (truthy (OPENAI_API_KEY settings)) eqn:Ho; [|discriminate].
  cbn [negb] in Hv.
  destruct (API_KEY settings) as [k|] eqn:Hk; [|discriminate].
  destruct (Py.is_empty k) eqn:He; [discriminate|].
  destruct (Nat.ltb_spec (Py.len k) 16) as [|Hlen]; [discriminate|].
  pose proof (len_le_length k) as Hbytes.
  split; [cbn; rewrite Ho; reflexivity|].
  exists k. split; [reflexivity|]. split; [lia|]. split; [exact Hlen|].
  intros api_key. unfold verify_api_key. rewrite Hk. cbn [truthy]. rewrite He.
  cbn [negb andb]. destruct (bool_decide_reflect (api_key = Some k)) as [E|E]; cbn.
  - split; [intros _; exact E|reflexivity].
  - split; [discriminate|intros E'; contradiction].
Qed.

Lemma production_settings_enforced_witness :
  let settings := {| VERSION := "0.1.0"; ENVIRONMENT := "production";
                     OPENAI_API_KEY := Some "sk-0123456789abcdefghij"%string;
                     API_KEY := Some "0123456789abcdef"%string |} in
  llm (StoryGeneratorService_init settings (flaky_chain 0 "A") 0)
  = Some (flaky_chain 0 "A")
  /\ exists k,
       API_KEY settings = Some k /\ (16 <= String.length k)%nat
       /\ (16 <= Py.len k)%nat
       /\ forall api_key,
            verify_api_key settings api_key = Ok api_key <-> api_key = Some k.
Proof.
  apply (production_settings_enforced
           {| VERSION := "0.1.0"; ENVIRONMENT := "production";
              OPENAI_API_KEY := Some "sk-0123456789abcdefghij"%string;
              API_KEY := Some "0123456789abcdef"%string |});
    reflexivity.
Defined.

(** X8. The settings accept an OpenAI key read from the environment
    exactly when it has 20 characters or more and starts with "sk-"; an
    accepted key is kept as it is and counts as configured. *)
Theorem openai_key_accepted (v : string) :
  ((exists o, field_OPENAI_API_KEY v = Accepted o)
   <-> (20 <= Py.len v)%nat /\ Py.startswith "sk-" v = true)
  /\ (forall o, field_OPENAI_API_KEY v = Accepted o ->
        o = Some v /\ truthy o = true).
Proof.
  unfold field_OPENAI_API_KEY, validate_openai_key.
  destruct (Nat.ltb_spec (Py.len v) 20) as [Hlt|Hge].
  - split; [|discriminate]. split; [intros [o H]; discriminate|lia].
  - assert (Py.is_empty v = false) as He by (destruct v; [cbn in Hge; lia|reflexivity]).
    rewrite He. cbn [negb andb].
    destruct (Py.startswith "sk-" v) eqn:Hs; cbn [negb].
    + split; [split; [auto|eauto]|].
      intros o [= <-]. split; [reflexivity|]. cbn. rewrite He. reflexivity.
    + split; [|discriminate].
      split; [intros [o H]; discriminate|intros [_ H]; discriminate].
Qed.

(** The length is counted in characters: a key of 12 characters is
    refused although it takes 21 bytes. *)
Example openai_key_length_in_characters :
  Py.len "sk-ééééééééé" = 12%nat
  /\ String.length "sk-ééééééééé" = 21%nat
  /\ field_OPENAI_API_KEY "sk-ééééééééé" = Rejected "string_too_short".
Proof. vm_compute. repeat split; reflexivity. Qed.

(** ** The tone *)

(** X9. A tone is accepted exactly when its lower-case form is one of the
    seven supported tones, it is kept in that form, and that form is
    accepted unchanged when validated again; any other tone is rejected
    with the list of the supported ones. The comparison ignores case: on
    ASCII text the lower-case form is the text with its letters A..Z
    turned into a..z, so every spelling of a supported tone in mixed case
    is accepted. *)
Theorem validate_tone_normalises (s : string) :
  (Py.lower s ∈ valid_tones ->
     validate_tone (Some s) = Accepted (Some (Py.lower s))
     /\ validate_tone (Some (Py.lower s)) = Accepted (Some (Py.lower s)))
  /\ (Py.lower s ∉ valid_tones ->
     validate_tone (Some s)
     = Rejected "Tone must be one of: neutral, humorous, dark, epic, romantic, mysterious, dramatic")
  /\ (Py.is_ascii s = true ->
     Py.lower s = Py.map_chars Py.lower_char s
     /\ (Py.map_chars Py.lower_char s ∈ valid_tones ->
         validate_tone (Some s)
         = Accepted (Some (Py.map_chars Py.lower_char s)))).
Proof.
  split; [|split]; intros H; unfold validate_tone.
  - rewrite (bool_decide_eq_true_2 _ H). split; [reflexivity|].
    unfold valid_tones in H.
    repeat (apply elem_of_cons in H as [H|H]; [rewrite H; reflexivity|]).
    inversion H.
  - rewrite (bool_decide_eq_false_2 _ H). reflexivity.
  - rewrite (lower_ascii _ H). split; [reflexivity|].
    intros Hin. rewrite (bool_decide_eq_true_2 _ Hin). reflexivity.
Qed.

Lemma validate_tone_normalises_witness :
  (validate_tone (Some "Humorous"%string) = Accepted (Some "humorous"%string)
   /\ validate_tone (Some "humorous"%string) = Accepted (Some "humorous"%string))
  /\ validate_tone (Some "sad"%string)
     = Rejected "Tone must be one of: neutral, humorous, dark, epic, romantic, mysterious, dramatic"
  /\ validate_tone (Some "dRaMaTiC"%string) = Accepted (Some "dramatic"%string).
Proof.
  split; [|split].
  - apply (proj1 (validate_tone_normalises "Humorous")).
    apply list_elem_of_In. vm_compute. right. left. reflexivity.
  - apply (proj1 (proj2 (validate_tone_normalises "sad"))).
    intros H. apply list_elem_of_In in H. vm_compute in H.
    repeat (destruct H as [H|H]; [discriminate|]). exact H.
  - apply (proj2 (proj2 (validate_tone_normalises "dRaMaTiC"))); [reflexivity|].
    apply list_elem_of_In. vm_compute. do 6 right. left. reflexivity.
Defined.

(** Outside ASCII the case mapping is that of Unicode: the Kelvin sign is
    lowered to the letter k. *)
Example validate_tone_kelvin :
  validate_tone (Some "darK"%string) = Accepted (Some "dark"%string).
Proof. vm_compute. reflexivity. Qed.

(** ** Validated requests *)

Section Trimming.

Import Py.

Lemma rstrip_idempotent (s : string) : rstrip (rstrip s) = rstrip s.
Proof.
  induction s as [|c r IH]; [reflexivity|].
  cbn [rstrip]. destruct (is_blank (String c r)) eqn:B; [reflexivity|].
  cbn [rstrip]. rewrite IH.
  destruct (is_blank (String c (rstrip r))) eqn:B'; [exfalso|reflexivity].
  destruct (rstrip_split r) as (t & E & Ht).
  assert (is_blank (String c r) = true) as B''.
  { rewrite E.
    change (String c (rstrip r +:+ t)) with (String c (rstrip r) +:+ t).
    rewrite (is_blank_app _ _ B'). exact Ht. }
  congruence.
Qed.

(** Trimming a trimmed string changes nothing. *)
Lemma strip_idempotent (s : string) : strip (strip s) = strip s.
Proof.
  unfold strip at 1. rewrite lstrip_strip.
  unfold strip. apply rstrip_idempotent.
Qed.

End Trimming.

Lemma check_length_none (lo hi : nat) (v : string) :
  check_length lo hi v = None <-> (lo <= Py.len v <= hi)%nat.
Proof.
  unfold check_length.
  destruct (Nat.ltb_spec (Py.len v) lo); [split; [discriminate|lia]|].
  destruct (Nat.ltb_spec hi (Py.len v)); [split; [discriminate|lia]|].
  split; [lia|reflexivity].
Qed.

Section ValidFields.

Variable raw : RawRequest.
Variable r : StoryGenerationRequest.
Hypothesis Hvalid : model_validate raw = Valid r.

Lemma valid_keywords_facts :
  (1 <= length (keywords r) <= 10)%nat /\ NoDup (keywords r)
  /\ forall k, k ∈ keywords r -> k <> EmptyString /\ Py.strip k = k.
Proof.
  pose proof (model_validate_valid raw r Hvalid) as (Hk & _).
  destruct (validated_keywords raw r Hvalid) as [E Hne].
  unfold field_keywords in Hk.
  destruct (check_size 1 10 (length (raw_keywords raw))) eqn:Hs; [discriminate|].
  apply check_size_none in Hs.
  split; [|split].
  - split.
    + destruct (keywords r); [congruence|cbn; lia].
    + rewrite E.
      pose proof (elements_length_le (stripped_nonempty (raw_keywords raw))).
      pose proof (stripped_nonempty_length (raw_keywords raw)). lia.
  - rewrite E. apply NoDup_elements.
  - intros k Hin. rewrite E in Hin.
    apply elem_of_elements, elem_of_list_to_set, elem_of_stripped_nonempty in Hin
      as (k0 & _ & Hb & ->).
    split; [apply strip_nonblank, Hb|apply strip_idempotent].
Qed.

Lemma valid_genre_facts :
  genre r = raw_genre raw /\ (3 <= Py.len (genre r) <= 50)%nat.
Proof.
  pose proof (model_validate_valid raw r Hvalid) as (_ & Hg & _).
  unfold field_genre in Hg.
  destruct (check_length 3 50 (raw_genre raw)) eqn:Hs; [discriminate|].
  apply check_length_none in Hs. injection Hg as <-. auto.
Qed.

Lemma valid_tone_facts :
  exists t, tone r = Some t /\ t ∈ valid_tones /\ Py.lower t = t.
Proof.
  pose proof (model_validate_valid raw r Hvalid) as (_ & _ & Ht & _).
  unfold field_tone in Ht.
  assert (forall t, t ∈ valid_tones -> Py.lower t = t) as Hfix.
  { intros t H. unfold valid_tones in H.
    repeat (apply elem_of_cons in H as [H|H]; [rewrite H; reflexivity|]).
    inversion H. }
  destruct (raw_tone raw) as [[s|]|].
  - unfold validate_tone in Ht.
    destruct (bool_decide_reflect (Py.lower s ∈ valid_tones)) as [Hin|];
      [|discriminate].
    injection Ht as <-. eauto.
  - discriminate.
  - injection Ht as <-. exists "neutral"%string.
    split; [reflexivity|]. split; [left|reflexivity].
Qed.

Lemma valid_lengths_facts :
  (forall mx, max_length r = Some mx -> 100 <= mx <= 2000)
  /\ (forall mn, min_length r = Some mn ->
        50 <= mn <= 1000 /\ exists mx, max_length r = Some mx /\ mn <= mx).
Proof.
  pose proof (model_validate_valid raw r Hvalid) as (_ & _ & _ & Hmx & Hmn).
  rewrite Hmx in Hmn. cbn [validated_value] in Hmn.
  split.
  - intros mx E. rewrite E in Hmx. unfold field_max_length in Hmx.
    destruct (raw_max_length raw) as [m|]; [|injection Hmx as <-; lia].
    destruct (check_range 100 2000 m) eqn:C; [discriminate|].
    injection Hmx as ->. apply check_range_some, C.
  - intros mn E. rewrite E in Hmn. unfold field_min_length in Hmn.
    destruct (raw_min_length raw) as [m|]; [|discriminate].
    destruct (check_range 50 1000 m) eqn:C; [discriminate|].
    unfold validate_length_range in Hmn.
    destruct m as [n|]; [|discriminate].
    apply check_range_some in C.
    destruct (Z.eqb_spec n 0); [lia|].
    destruct (max_length r) as [mx|]; [|discriminate].
    destruct (Z.ltb_spec mx n); [discriminate|].
    injection Hmn as <-. split; [exact C|]. exists mx. split; [reflexivity|lia].
Qed.

End ValidFields.

(** X10. Every request that validates has 1 to 10 keywords, all distinct,
    non-empty and trimmed (a keyword begins with no whitespace character
    and ends with none); the genre as sent, of 3 to 50 characters; a
    tone, in lower case, among the seven supported ones; a [max_length],
    if any, within 100..2000; and a [min_length], if any, within 50..1000,
    in which case [max_length] is there too and is not below it. *)
Theorem validated_request_invariant (raw : RawRequest) (r : StoryGenerationRequest) :
  model_validate raw = Valid r ->
  ((1 <= length (keywords r) <= 10)%nat /\ NoDup (keywords r)
   /\ forall k, k ∈ keywords r ->
        k <> EmptyString /\ Py.strip k = k
        /\ Py.space_width k = 0%nat
        /\ forall x y, k = x +:+ y -> Py.is_blank y = true -> y = EmptyString)
  /\ (genre r = raw_genre raw /\ (3 <= Py.len (genre r) <= 50)%nat)
  /\ (exists t, tone r = Some t /\ t ∈ valid_tones /\ Py.lower t = t)
  /\ (forall mx, max_length r = Some mx -> 100 <= mx <= 2000)
  /\ (forall mn, min_length r = Some mn ->
        50 <= mn <= 1000 /\ exists mx, max_length r = Some mx /\ mn <= mx).
Proof.
  intros H.
  split.
  { destruct (valid_keywords_facts raw r H) as (Hlen & Hnd & Hks).
    split; [exact Hlen|]. split; [exact Hnd|].
    intros k Hin. destruct (Hks k Hin) as [Hne Hs].
    split; [exact Hne|]. split; [exact Hs|]. split.
    - rewrite <- Hs. apply strip_no_space.
    - intros x y E. apply (strip_no_blank_suffix k x y). rewrite Hs. exact E. }
  split; [exact (valid_genre_facts raw r H)|].
  split; [exact (valid_tone_facts raw r H)|].
  exact (valid_lengths_facts raw r H).
Qed.

Lemma validated_request_invariant_witness :
  ((1 <= length (keywords ninja_request) <= 10)%nat /\ NoDup (keywords ninja_request)
   /\ forall k, k ∈ keywords ninja_request ->
        k <> EmptyString /\ Py.strip k = k
        /\ Py.space_width k = 0%nat
        /\ forall x y, k = x +:+ y -> Py.is_blank y = true -> y = EmptyString)
  /\ (genre ninja_request = raw_genre ninja_raw
      /\ (3 <= Py.len (genre ninja_request) <= 50)%nat)
  /\ (exists t, tone ninja_request = Some t /\ t ∈ valid_tones /\ Py.lower t = t)
  /\ (forall mx, max_length ninja_request = Some mx -> 100 <= mx <= 2000)
  /\ (forall mn, min_length ninja_request = Some mn ->
        50 <= mn <= 1000
        /\ exists mx, max_length ninja_request = Some mx /\ mn <= mx).
Proof.
  apply (validated_request_invariant ninja_raw ninja_request).
  vm_compute. reflexivity.
Defined.

(** The length of the genre is counted in characters, not in bytes. *)
Example genre_length_in_characters :
  field_genre "日本" = Rejected "string_too_short"
  /\ field_genre "éééééééééééééééééééééééééééééééééééééééééééééééééé"
     = Accepted "éééééééééééééééééééééééééééééééééééééééééééééééééé"%string.
Proof. vm_compute. split; reflexivity. Qed.

(** X11. A payload with [max_length] null and a [min_length] within
    50..1000 does not fail validation: the comparison of the validator
    raises [TypeError], which is no validation error and leaves the model
    as it is (unless the tone, validated before, has already raised). *)
Theorem max_length_null_type_error (raw : RawRequest) (mn : Z) :
  raw_max_length raw = Some None ->
  raw_min_length raw = Some (Some mn) ->
  50 <= mn <= 1000 ->
  raw_tone raw <> Some None ->
  model_validate raw
  = Crashed (PyException "TypeError"
               "'>' not supported between instances of 'int' and 'NoneType'").
Proof.
  intros Hmx Hmn Hb Ht. unfold model_validate.
  rewrite Hmx, Hmn. unfold field_min_length, field_max_length.
  rewrite (check_range_in _ _ _ Hb). cbn [check_range validated_value].
  unfold validate_length_range. destruct (Z.eqb_spec mn 0); [lia|].
  unfold field_tone, validate_tone.
  destruct (raw_tone raw) as [[s|]|]; [|congruence|reflexivity].
  destruct (bool_decide _); reflexivity.
Qed.

Lemma max_length_null_type_error_witness :
  model_validate {| raw_keywords := ["ninja"]%string; raw_genre := "fantasy";
                    raw_tone := None; raw_max_length := Some None;
                    raw_min_length := Some (Some 100) |}
  = Crashed (PyException "TypeError"
               "'>' not supported between instances of 'int' and 'NoneType'").
Proof.
  apply (max_length_null_type_error _ 100); [reflexivity|reflexivity|lia|discriminate].
Defined.

Section ErrorLists.

Variable raw : RawRequest.

Lemma field_keywords_not_raised (e : py_exception) :
  field_keywords (raw_keywords raw) <> Raised e.
Proof.
  unfold field_keywords, validate_keywords.
  destruct (check_size _ _ _); [discriminate|].
  destruct (elements _); discriminate.
Qed.

Lemma field_genre_not_raised (e : py_exception) :
  field_genre (raw_genre raw) <> Raised e.
Proof. unfold field_genre. destruct (check_length _ _ _); discriminate. Qed.

Lemma field_max_length_not_raised (e : py_exception) :
  field_max_length (raw_max_length raw) <> Raised e.
Proof.
  unfold field_max_length. destruct (raw_max_length raw) as [m|]; [|discriminate].
  destruct (check_range _ _ _); discriminate.
Qed.

(** The errors of a rejected payload, field by field. *)
Lemma invalid_errors (errors : list (string * string)) :
  model_validate raw = Invalid errors ->
  errors
  = field_errors "keywords" (field_keywords (raw_keywords raw))
    ++ field_errors "genre" (field_genre (raw_genre raw))
    ++ field_errors "tone" (field_tone (raw_tone raw))
    ++ field_errors "max_length" (field_max_length (raw_max_length raw))
    ++ field_errors "min_length"
         (field_min_length (raw_min_length raw)
            (validated_value (field_max_length (raw_max_length raw))))
  /\ (forall e, field_tone (raw_tone raw) <> Raised e)
  /\ (forall e, field_min_length (raw_min_length raw)
                  (validated_value (field_max_length (raw_max_length raw)))
                <> Raised e).
Proof.
  unfold model_validate.
  destruct (field_tone (raw_tone raw)) eqn:Ft; [| |discriminate];
    destruct (field_min_length _ _) eqn:Fmin; try discriminate;
    destruct (field_keywords (raw_keywords raw)) eqn:Fk;
    destruct (field_genre (raw_genre raw)) eqn:Fg;
    destruct (field_max_length (raw_max_length raw)) eqn:Fmax;
    try discriminate;
    intros [= <-]; (split; [reflexivity|]); split; discriminate.
Qed.

End ErrorLists.

(** X12. A rejected payload reports every rejected field at once, each
    once and in the order of declaration, and its list of errors is never
    empty. *)
Theorem invalid_errors_accumulate (raw : RawRequest)
    (errors : list (string * string)) :
  model_validate raw = Invalid errors ->
  errors <> []
  /\ sublist (errors.*1) ["keywords"; "genre"; "tone"; "max_length"; "min_length"]%string
  /\ (forall msg, field_keywords (raw_keywords raw) = Rejected msg ->
        ("keywords"%string, msg) ∈ errors)
  /\ (forall msg, field_genre (raw_genre raw) = Rejected msg ->
        ("genre"%string, msg) ∈ errors)
  /\ (forall msg, field_tone (raw_tone raw) = Rejected msg ->
        ("tone"%string, msg) ∈ errors)
  /\ (forall msg, field_max_length (raw_max_length raw) = Rejected msg ->
        ("max_length"%string, msg) ∈ errors)
  /\ (forall msg,
        field_min_length (raw_min_length raw)
          (validated_value (field_max_length (raw_max_length raw)))
        = Rejected msg ->
        ("min_length"%string, msg) ∈ errors).
Proof.
  intros H. pose proof H as H0.
  apply invalid_errors in H as (-> & Ht & Hmin).
  pose proof (field_keywords_not_raised raw) as Hk.
  pose proof (field_genre_not_raised raw) as Hg.
  pose proof (field_max_length_not_raised raw) as Hmx.
  unfold model_validate in H0.
  destruct (field_keywords (raw_keywords raw)) as [k|mk|e];
    [| |exfalso; exact (Hk e eq_refl)];
    (destruct (field_genre (raw_genre raw)) as [g|mg|e];
       [| |exfalso; exact (Hg e eq_refl)]);
    (destruct (field_tone (raw_tone raw)) as [t|mt|e];
       [| |exfalso; exact (Ht e eq_refl)]);
    (destruct (field_max_length (raw_max_length raw)) as [mx|mmx|e];
       [| |exfalso; exact (Hmx e eq_refl)]);
    (destruct (field_min_length _ _) as [mn|mmn|e];
       [| |exfalso; exact (Hmin e eq_refl)]);
    try discriminate H0; cbn;
    (split; [discriminate|]);
    (split; [repeat constructor|]);
    repeat split; intros msg [= <-]; set_solver.
Qed.

Lemma invalid_errors_accumulate_witness :
  let raw := {| raw_keywords := []; raw_genre := "ab";
                raw_tone := Some (Some "sad"%string);
                raw_max_length := Some (Some 5000);
                raw_min_length := Some (Some 10) |} in
  let errors :=
    [("keywords", "too_short"); ("genre", "string_too_short");
     ("tone", "Tone must be one of: neutral, humorous, dark, epic, romantic, mysterious, dramatic");
     ("max_length", "less_than_equal");
     ("min_length", "greater_than_equal")]%string in
  errors <> []
  /\ sublist (errors.*1) ["keywords"; "genre"; "tone"; "max_length"; "min_length"]%string
  /\ (forall msg, field_keywords (raw_keywords raw) = Rejected msg ->
        ("keywords"%string, msg) ∈ errors)
  /\ (forall msg, field_genre (raw_genre raw) = Rejected msg ->
        ("genre"%string, msg) ∈ errors)
  /\ (forall msg, field_tone (raw_tone raw) = Rejected msg ->
        ("tone"%string, msg) ∈ errors)
  /\ (forall msg, field_max_length (raw_max_length raw) = Rejected msg ->
        ("max_length"%string, msg) ∈ errors)
  /\ (forall msg,
        field_min_length (raw_min_length raw)
          (validated_value (field_max_length (raw_max_length raw)))
        = Rejected msg ->
        ("min_length"%string, msg) ∈ errors).
Proof.
  apply (invalid_errors_accumulate
           {| raw_keywords := []; raw_genre := "ab";
              raw_tone := Some (Some "sad"%string);
              raw_max_length := Some (Some 5000);
              raw_min_length := Some (Some 10) |}).
  vm_compute. reflexivity.
Defined.

(** X13. When [max_length] is rejected it is not in the data the validator
    of [min_length] sees, so the two are not compared: a [min_length]
    within 50..1000 is accepted whatever the rejected [max_length] was,
    and the payload is rejected for [max_length], not for [min_length]. *)
Theorem max_length_rejected_min_unchecked (raw : RawRequest) (mx mn : Z) :
  raw_max_length raw = Some (Some mx) -> mx < 100 \/ 2000 < mx ->
  raw_min_length raw = Some (Some mn) -> 50 <= mn <= 1000 ->
  raw_tone raw <> Some None ->
  field_min_length (raw_min_length raw)
    (validated_value (field_max_length (raw_max_length raw)))
  = Accepted (Some mn)
  /\ exists errors msg,
       model_validate raw = Invalid errors
       /\ ("max_length"%string, msg) ∈ errors
       /\ ("min_length"%string ∉ errors.*1).
Proof.
  intros Hmx Hout Hmn Hb Ht.
  assert (exists msg, field_max_length (raw_max_length raw) = Rejected msg) as [msg Fmx].
  { rewrite Hmx. unfold field_max_length, check_range.
    destruct (Z.ltb_spec mx 100); [eauto|].
    destruct (Z.ltb_spec 2000 mx); [eauto|lia]. }
  assert (field_min_length (raw_min_length raw)
            (validated_value (field_max_length (raw_max_length raw)))
          = Accepted (Some mn)) as Fmn.
  { rewrite Fmx, Hmn. unfold field_min_length.
    rewrite (check_range_in _ _ _ Hb). cbn.
    destruct (Z.eqb_spec mn 0); reflexivity. }
  split; [exact Fmn|].
  pose proof (field_keywords_not_raised raw) as Hk.
  pose proof (field_genre_not_raised raw) as Hg.
  assert (forall e, field_tone (raw_tone raw) <> Raised e) as Hte.
  { intros e. unfold field_tone, validate_tone.
    destruct (raw_tone raw) as [[s|]|]; [|congruence|discriminate].
    destruct (bool_decide _); discriminate. }
  unfold model_validate. rewrite Fmn, Fmx.
  destruct (field_keywords (raw_keywords raw)) as [k|mk|e];
    [| |exfalso; exact (Hk e eq_refl)];
    (destruct (field_genre (raw_genre raw)) as [g|mg|e];
       [| |exfalso; exact (Hg e eq_refl)]);
    (destruct (field_tone (raw_tone raw)) as [t|mt|e];
       [| |exfalso; exact (Hte e eq_refl)]);
    eexists; exists msg; (split; [reflexivity|]); cbn;
    (split; [apply list_elem_of_In; cbn; auto 10|]);
    intros H; apply list_elem_of_In in H; cbn in H; intuition discriminate.
Qed.

Lemma max_length_rejected_min_unchecked_witness :
  let raw := {| raw_keywords := ["ninja"]%string; raw_genre := "fantasy";
                raw_tone := None; raw_max_length := Some (Some 60);
                raw_min_length := Some (Some 900) |} in
  field_min_length (raw_min_length raw)
    (validated_value (field_max_length (raw_max_length raw)))
  = Accepted (Some 900)
  /\ exists errors msg,
       model_validate raw = Invalid errors
       /\ ("max_length"%string, msg) ∈ errors
       /\ ("min_length"%string ∉ errors.*1).
Proof.
  apply (max_length_rejected_min_unchecked
           {| raw_keywords := ["ninja"]%string; raw_genre := "fantasy";
              raw_tone := None; raw_max_length := Some (Some 60);
              raw_min_length := Some (Some 900) |} 60 900);
    [reflexivity|lia|reflexivity|lia|discriminate].
Defined.




(** ** The mock story *)

Section Occurrences.

Import Py.

Lemma occurs_prefix (x s : string) : occurs x (x +:+ s) = true.
Proof.
  destruct (x +:+ s) as [|c r] eqn:E.
  - destruct x; [reflexivity|cbn in E; discriminate E].
  - cbn [occurs]. rewrite <- E, startswith_app. reflexivity.
Qed.

Lemma occurs_app (p x s : string) : occurs x (p +:+ x +:+ s) = true.
Proof.
  induction p as [|c r IH]; [exact (occurs_prefix x s)|].
  cbn [String.append occurs]. rewrite IH. apply orb_true_r.
Qed.

Lemma fstring_app (a b : list string) :
  fstring (a ++ b) = fstring a +:+ fstring b.
Proof.
  unfold fstring. induction a as [|x a IH]; cbn [foldr app]; [reflexivity|].
  rewrite IH, append_assoc. reflexivity.
Qed.

(** A piece of an f-string occurs in the string it builds. *)
Lemma occurs_fstring (a : list string) (x : string) (b : list string) :
  occurs x (fstring (a ++ x :: b)) = true.
Proof. rewrite fstring_app. cbn [fstring foldr]. apply occurs_app. Qed.

End Occurrences.

(** X15. The mock backend needs a first keyword: without one it raises
    [IndexError] before anything is logged. With one, the story it returns
    mentions that keyword, the genre and the tone of the request, and
    reports the requested minimum length, printed as "None" when the
    request has none; the only trace it leaves is one log entry. *)
Theorem mock_story_mentions_request (self : StoryGeneratorService)
    (request : StoryGenerationRequest) (w : world) :
  (keywords request = [] ->
     _generate_mock self request w
     = (Exc (PyException "IndexError" "list index out of range"), w))
  /\ (forall keyword0 ks, keywords request = keyword0 :: ks ->
      exists resp,
        _generate_mock self request w
        = (Ok resp,
           {| invocations := invocations w;
              log := log w ++ [{| level := INFO; event := "mock_story_generated";
                                  fields := [("keywords", JList (keywords request));
                                             ("genre", JStr (genre request))] |}];
              sleeps := sleeps w |})
        /\ Py.occurs keyword0 (content resp) = true
        /\ Py.occurs (genre request) (content resp) = true
        /\ Py.occurs (str_of_opt_str (tone request)) (content resp) = true
        /\ Py.occurs (str_of_opt_int (min_length request)) (content resp) = true
        /\ (min_length request = None ->
              Py.occurs "Min length requested was None. " (content resp) = true)).
Proof.
  split.
  - intros E. unfold _generate_mock. rewrite E. reflexivity.
  - intros keyword0 ks E. unfold _generate_mock. rewrite E.
    unfold bind, emit, ret. cbn [invocations log sleeps].
    match goal with |- context [random_choice ?r [?a; ?b]] =>
      destruct (random_choice_pair r a b) as [C|C]; rewrite C end;
      eexists; (split; [reflexivity|]); cbn [content];
      (split; [exact (occurs_fstring [_; _; _] keyword0 _)|]);
      (split; [exact (occurs_fstring [_] (genre request) _)|]);
      (split; [exact (occurs_fstring [_; _; _; _; _; _] (str_of_opt_str (tone request)) _)|]);
      (split; [exact (occurs_fstring [_; _; _; _; _; _; _; _; _; _; _]
                        (str_of_opt_int (min_length request)) _)|]);
      intros ->;
      match goal with
      | |- Py.occurs ?x (Py.fstring (?a :: ?b :: ?c :: ?d :: ?e :: ?f :: ?g
                                       :: ?h :: ?i :: ?j :: ?rest)) = true =>
          change (Py.occurs x (Py.fstring ([a; b; c; d; e; f; g; h; i; j] ++ rest))
                  = true);
          rewrite fstring_app;
          exact (occurs_app _ x "And they lived happily ever after.")
      end.
Qed.

Lemma mock_story_mentions_request_witness :
  _generate_mock (mock_service 0)
    {| keywords := []; genre := "fantasy"; tone := Some "dark"%string;
       max_length := Some 500; min_length := None |} world0
  = (Exc (PyException "IndexError" "list index out of range"), world0)
  /\ exists resp,
       _generate_mock (mock_service 0) ninja_request world0
       = (Ok resp,
          {| invocations := 0;
             log := [{| level := INFO; event := "mock_story_generated";
                        fields := [("keywords", JList ["ninja"; "toad"]%string);
                                   ("genre", JStr "fantasy")] |}];
             sleeps := [] |})
       /\ Py.occurs "ninja" (content resp) = true
       /\ Py.occurs "fantasy" (content resp) = true
       /\ Py.occurs "humorous" (content resp) = true
       /\ Py.occurs "100" (content resp) = true
       /\ (min_length ninja_request = None ->
             Py.occurs "Min length requested was None. " (content resp) = true).
Proof.
  split.
  - apply (proj1 (mock_story_mentions_request (mock_service 0)
                    {| keywords := []; genre := "fantasy"; tone := Some "dark"%string;
                       max_length := Some 500; min_length := None |} world0)).
    reflexivity.
  - apply (proj2 (mock_story_mentions_request (mock_service 0) ninja_request world0)
             "ninja"%string ["toad"%string]).
    reflexivity.
Defined.

(** ** The parsed answer *)

Section NewlineFree.

Import Py.

Lemma has_newline_drop (n : nat) (s : string) :
  has_newline s = false -> has_newline (drop_chars n s) = false.
Proof.
  revert s. induction n as [|n IH]; intros [|c r]; cbn; auto.
  intros H. apply orb_false_iff in H as [_ Hr]. exact (IH _ Hr).
Qed.

Lemma has_newline_lstrip (s : string) :
  has_newline s = false -> has_newline (lstrip s) = false.
Proof.
  induction s as [s IH] using string_length_ind. intros H.
  destruct (Nat.eq_dec (space_width s) 0%nat) as [E|E].
  - rewrite (lstrip_fixed _ E). exact H.
  - rewrite (lstrip_step _ E).
    apply IH; [apply drop_space_shorter, E|apply has_newline_drop, H].
Qed.

Lemma has_newline_rstrip (s : string) :
  has_newline s = false -> has_newline (rstrip s) = false.
Proof.
  induction s as [|c r IH]; [reflexivity|].
  cbn [has_newline rstrip]. intros H. apply orb_false_iff in H as [Hc Hr].
  destruct (is_blank (String c r)); [reflexivity|].
  cbn [has_newline]. rewrite Hc, (IH Hr). reflexivity.
Qed.

Lemma has_newline_strip (s : string) :
  has_newline s = false -> has_newline (strip s) = false.
Proof. intros H. apply has_newline_rstrip, has_newline_lstrip, H. Qed.

Lemma has_newline_remove_scan (old : string) (skip : nat) (s : string) :
  has_newline s = false -> has_newline (remove_scan old skip s) = false.
Proof.
  revert skip. induction s as [|c r IH]; intros skip; [reflexivity|].
  cbn [has_newline remove_scan]. intros H. apply orb_false_iff in H as [Hc Hr].
  destruct skip; [|exact (IH _ Hr)].
  destruct (startswith old (String c r)); [exact (IH _ Hr)|].
  cbn [has_newline]. rewrite Hc, (IH _ Hr). reflexivity.
Qed.

Lemma has_newline_remove_all (old s : string) :
  has_newline s = false -> has_newline (remove_all old s) = false.
Proof.
  unfold remove_all. destruct (is_empty old); [auto|].
  apply has_newline_remove_scan.
Qed.

End NewlineFree.

(** X16. What the parser makes of any text: when the trimmed text has no
    newline, the fixed title with the text as it came, untrimmed; when it
    has one, a title that is trimmed and holds no newline, and a content
    that is trimmed and not empty. *)
Theorem parse_response_shape (raw : string) :
  (Py.has_newline (Py.strip raw) = false
   /\ parse_response raw = ("Untitled Story"%string, raw))
  \/ (Py.has_newline (Py.strip raw) = true
      /\ Py.strip (fst (parse_response raw)) = fst (parse_response raw)
      /\ Py.has_newline (fst (parse_response raw)) = false
      /\ Py.strip (snd (parse_response raw)) = snd (parse_response raw)
      /\ snd (parse_response raw) <> EmptyString).
Proof.
  destruct (first_newline (Py.strip raw)) as [H|(a & b & Hab & Ha)].
  - left. split; [exact H|apply parse_response_one_line, H].
  - right. rewrite (parse_response_two_parts _ _ _ Hab Ha). cbn [fst snd].
    split; [rewrite Hab; apply has_newline_app|].
    split; [apply strip_idempotent|].
    split.
    { apply has_newline_strip, has_newline_remove_all, has_newline_remove_all,
        has_newline_strip, Ha. }
    split; [apply strip_idempotent|].
    destruct (strip_cut_parts _ _ _ Hab) as [_ Hb].
    apply strip_nonblank, Hb.
Qed.

(** ** From the settings to the answer *)




(** ** Readiness *)

(** X18. The readiness probe answers 200, ready, or 503, not ready, and
    nothing else; 503 exactly when an OpenAI key is configured and listing
    the models raises, in which case the text of the exception is put in
    the body and logged as a warning. In mock mode it is always ready and
    leaves no trace. *)
Theorem readiness_check_status (settings : Settings) (probe : probe_result)
    (w : world) :
  exists code report w',
    readiness_check settings probe w = ((code, report), w')
    /\ (code = 200 /\ ready report = true \/ code = 503 /\ ready report = false)
    /\ (code = 503
        <-> truthy (OPENAI_API_KEY settings) = true
            /\ exists e, probe = Unreachable e)
    /\ (forall e, truthy (OPENAI_API_KEY settings) = true ->
          probe = Unreachable e ->
          body_get "error" (checks_openai report) = Some (JStr (exc_str e))
          /\ log w'
             = log w ++ [{| level := WARNING; event := "openai_health_check_failed";
                            fields := [("error", JStr (exc_str e))] |}])
    /\ (truthy (OPENAI_API_KEY settings) = false ->
          body_get "status" (checks_openai report) = Some (JStr "not_configured")
          /\ w' = w)
    /\ invocations w' = invocations w.
Proof.
  unfold readiness_check.
  destruct (truthy (OPENAI_API_KEY settings)); [destruct probe as [|e]|];
    unfold emit; cbn; eexists; eexists; eexists; (split; [reflexivity|]); cbn.
  - split; [auto|]. split; [split; [discriminate|intros [_ [e H]]; discriminate]|].
    split; [intros e _ H; discriminate|]. split; [discriminate|reflexivity].
  - split; [auto|]. split; [split; [eauto|reflexivity]|].
    split; [intros e' _ [= <-]; auto|]. split; [discriminate|reflexivity].
  - split; [auto|]. split; [split; [discriminate|intros [H _]; discriminate]|].
    split; [intros e H; discriminate|]. split; [auto|reflexivity].
Qed.

(** ** The generic handler *)

(** X19. The handler registered for [JiraiyaException] never answers a
    request on [/generate]: the only exception of that family that leaves
    the route is [StoryGenerationError], which has its own handler, so no
    answer carries the "about:blank" problem type, and [RateLimitExceeded]
    is never raised. *)
Theorem jiraiya_handler_unreachable (path : string)
    (service : StoryGeneratorService) (request : StoryGenerationRequest)
    (w : world) :
  (forall msg w', Router.generate_story service request w
                  <> (Exc (RateLimitExceeded msg), w'))
  /\ (forall resp w', post_generate path service request w = (resp, w') ->
        body_get "type" (body resp) <> Some (JStr "about:blank")).
Proof.
  assert (forall msg w', Router.generate_story service request w
                         <> (Exc (RateLimitExceeded msg), w')) as Hno.
  { intros msg w'. unfold Router.generate_story, try_except, bind, emit, ret, raise.
    cbn [invocations log sleeps].
    match goal with |- context [generate_story service request ?w0] =>
      destruct (generate_story service request w0) as [[story|e] w1] eqn:G end;
      [discriminate|].
    destruct (is_JiraiyaException e) eqn:J; [|discriminate].
    destruct (generate_story_raises _ _ _ _ _ G J) as (m & d & ->). discriminate. }
  split; [exact Hno|].
  intros resp w'. unfold post_generate.
  destruct (Router.generate_story service request w) as [[story|e] w1] eqn:R.
  - intros [= <- _]. cbn. discriminate.
  - destruct e; try (intros [= <- _]; cbn; discriminate).
    exfalso. eapply Hno. reflexivity.
Qed.
